(** * Stock-server: a shallow embedding of [backend.py]

    The service is a FastAPI facade over the yfinance market-data library.
    The embedding keeps the shape of the Python module:

    - Python values that travel through the handlers (JSON-like payloads,
      pandas frames) are first-order data;
    - exceptions are an error type, [try/except] is a combinator;
    - the process-wide [lru_cache] and the log of upstream requests are an
      explicit state threaded through a small state-and-exception monad;
    - the market-data provider is an oracle: a function from the number of
      upstream requests already issued and the request to its answer, so a
      provider may fail once and answer later.

    Strings are byte strings; [lower] and [strip] are the ASCII fragments
    of Python's [str.lower] and [str.strip]. *)

From Stdlib Require Import ZArith List String Ascii Bool Lia Arith.
From Stdlib Require Import DecimalString.
Import ListNotations.

Local Open Scope string_scope.
Local Open Scope Z_scope.

Set Warnings "-register-all".

(* ------------------------------------------------------------------ *)
(** ** Python strings *)

Module PyStr.

Definition is_upper (c : ascii) : bool :=
  let n := nat_of_ascii c in (65 <=? n)%nat && (n <=? 90)%nat.

Definition lower_char (c : ascii) : ascii :=
  if is_upper c then ascii_of_nat (nat_of_ascii c + 32) else c.

(** [s.lower()] *)
Fixpoint lower (s : string) : string :=
  match s with
  | EmptyString => EmptyString
  | String c s' => String (lower_char c) (lower s')
  end.

(** [s.startswith(p)] *)
Fixpoint startswith (s p : string) : bool :=
  match p, s with
  | EmptyString, _ => true
  | String _ _, EmptyString => false
  | String a p', String b s' => Ascii.eqb a b && startswith s' p'
  end.

(** [s[n:]] *)
Fixpoint drop (n : nat) (s : string) : string :=
  match n, s with
  | O, _ => s
  | S _, EmptyString => EmptyString
  | S n', String _ s' => drop n' s'
  end.

(** [s.endswith(suffix)] *)
Definition endswith (s suffix : string) : bool :=
  (String.length suffix <=? String.length s)%nat
  && String.eqb (drop (String.length s - String.length suffix) s) suffix.

(** The characters [str.strip()] removes, restricted to ASCII:
    TAB, LF, VT, FF, CR, the separators 0x1C-0x1F and the space. *)
Definition is_space (c : ascii) : bool :=
  let n := nat_of_ascii c in
  ((9 <=? n)%nat && (n <=? 13)%nat)
  || ((28 <=? n)%nat && (n <=? 31)%nat)
  || (n =? 32)%nat.

Fixpoint lstrip (s : string) : string :=
  match s with
  | EmptyString => EmptyString
  | String c s' => if is_space c then lstrip s' else s
  end.

Fixpoint rstrip (s : string) : string :=
  match s with
  | EmptyString => EmptyString
  | String c s' =>
      match rstrip s' with
      | EmptyString => if is_space c then EmptyString else String c EmptyString
      | r => String c r
      end
  end.

(** [s.strip()] *)
Definition strip (s : string) : string := rstrip (lstrip s).

(** [s.split(sep)] for a one-character separator: never the empty list. *)
Fixpoint split (sep : ascii) (s : string) : list string :=
  match s with
  | EmptyString => [EmptyString]
  | String c s' =>
      if Ascii.eqb c sep then EmptyString :: split sep s'
      else match split sep s' with
           | [] => [String c EmptyString]
           | w :: ws => String c w :: ws
           end
  end.

(** [sep.join(parts)] *)
Definition join (sep : string) (parts : list string) : string :=
  String.concat sep parts.

(** [str(n)] for an integer. *)
Definition of_Z (n : Z) : string := NilZero.string_of_int (Z.to_int n).

(** Truthiness of a string: the empty string is falsy. *)
Definition truthy (s : string) : bool :=
  match s with EmptyString => false | _ => true end.

End PyStr.

(* ------------------------------------------------------------------ *)
(** ** Python values, exceptions and dictionaries *)

(** What the handlers pass around and return: JSON-like payloads.  A number
    (a price, a volume, a market capitalisation) is an opaque payload: no
    handler computes on it.  Dictionary keys are values, because a record
    of a frame with two-level columns has tuples as keys. *)
Inductive value : Type :=
| VNone
| VNum (n : Z)
| VStr (s : string)
| VTime (t : Z)
| VTuple (items : list value)
| VList (items : list value)
| VDict (entries : list (value * value)).

(** A dictionary literal with string keys, [{"k": v, ...}]. *)
Definition obj (entries : list (string * value)) : value :=
  VDict (map (fun kv => (VStr (fst kv), snd kv)) entries).

(** The exceptions the module raises or sees.  [HTTPException] is a
    subclass of [Exception], like every error the provider or pandas
    raise: [except Exception] catches both constructors. *)
Inductive PyExc : Type :=
| HTTPException (status_code : Z) (detail : string)
| Error (cls : string) (message : string).

(** [str(e)]; Starlette prints an [HTTPException] as "status: detail". *)
Definition exc_str (e : PyExc) : string :=
  match e with
  | HTTPException code detail => PyStr.of_Z code ++ ": " ++ detail
  | Error _ message => message
  end.

Inductive PyResult (A : Type) : Type :=
| Ok (a : A)
| Raise (e : PyExc).
Arguments Ok {A} a.
Arguments Raise {A} e.

(** Insertion-ordered dictionaries with string keys. *)
Definition dict (V : Type) : Type := list (string * V).

Fixpoint dict_find {V : Type} (d : dict V) (k : string) : option V :=
  match d with
  | [] => None
  | (k', v) :: d' => if String.eqb k k' then Some v else dict_find d' k
  end.

(** [d.get(k, default)] *)
Definition dict_get {V : Type} (d : dict V) (k : string) (default : V) : V :=
  match dict_find d k with Some v => v | None => default end.

(** [k in d] *)
Definition dict_mem {V : Type} (d : dict V) (k : string) : bool :=
  match dict_find d k with Some _ => true | None => false end.

(** [d[k]], which raises [KeyError] on a missing key. *)
Definition dict_index {V : Type} (d : dict V) (k : string) : PyResult V :=
  match dict_find d k with
  | Some v => Ok v
  | None => Raise (Error "KeyError" ("'" ++ k ++ "'"))
  end.

(** [d[k] = v]: an existing key keeps its position. *)
Fixpoint dict_set {V : Type} (d : dict V) (k : string) (v : V) : dict V :=
  match d with
  | [] => [(k, v)]
  | (k', v') :: d' =>
      if String.eqb k k' then (k, v) :: d' else (k', v') :: dict_set d' k v
  end.

Definition dict_keys {V : Type} (d : dict V) : list string := map fst d.

(* ------------------------------------------------------------------ *)
(** ** [datetime] and [timedelta] *)

(** A naive [datetime] is its distance in microseconds from
    [datetime.min] (0001-01-01T00:00); [datetime.max] is the last
    microsecond of the year 9999. *)
Definition datetime : Type := Z.

Definition us_per_day : Z := 86400000000.

Definition datetime_max : datetime := 3652059 * us_per_day - 1.

(** [timedelta(days=d)] *)
Definition timedelta (days : Z) : Z := days * us_per_day.

(** [t - delta]: Python raises [OverflowError] outside the years 1..9999. *)
Definition datetime_sub (t : datetime) (delta : Z) : PyResult datetime :=
  let r := t - delta in
  if (0 <=? r) && (r <=? datetime_max) then Ok r
  else Raise (Error "OverflowError" "date value out of range").

(* ------------------------------------------------------------------ *)
(** ** pandas frames, as far as the handlers observe them *)

(** A frame has a named time index and either one level of column labels
    ([Flat]) or two ([Multi]: the top-level labels each head a group of
    second-level labels, all groups sharing the index).  A pandas Series is
    a [Flat] frame of one column: the handlers only ask a Series for
    [empty] and for its records. *)
Inductive DataFrame : Type :=
| Flat (index_name : string) (columns : list string)
       (rows : list (Z * list value))
| Multi (index_name : string) (groups : list (string * list string))
        (rows : list (Z * list (list value))).

Definition is_nil {A : Type} (l : list A) : bool :=
  match l with [] => true | _ => false end.

(** [df.empty]: an axis of length zero. *)
Definition df_empty (df : DataFrame) : bool :=
  match df with
  | Flat _ columns rows => is_nil rows || is_nil columns
  | Multi _ groups rows => is_nil rows || forallb (fun g => is_nil (snd g)) groups
  end.

Fixpoint index_of (k : string) (l : list string) : option nat :=
  match l with
  | [] => None
  | k' :: l' =>
      if String.eqb k k' then Some O
      else match index_of k l' with Some i => Some (S i) | None => None end
  end.

(** [df[key]]: a column of a flat frame, the group of a two-level one. *)
Definition df_getitem (df : DataFrame) (key : string) : PyResult DataFrame :=
  match df with
  | Flat name columns rows =>
      match index_of key columns with
      | Some i => Ok (Flat name [key] (map (fun r => (fst r, [nth i (snd r) VNone])) rows))
      | None => Raise (Error "KeyError" ("'" ++ key ++ "'"))
      end
  | Multi name groups rows =>
      match index_of key (map fst groups) with
      | Some i =>
          Ok (Flat name (nth i (map snd groups) [])
                   (map (fun r => (fst r, nth i (snd r) [])) rows))
      | None => Raise (Error "KeyError" ("'" ++ key ++ "'"))
      end
  end.

(** [df.columns.levels[0]]: only a two-level column index has levels. *)
Definition df_levels0 (df : DataFrame) : PyResult (list string) :=
  match df with
  | Flat _ _ _ =>
      Raise (Error "AttributeError" "'Index' object has no attribute 'levels'")
  | Multi _ groups _ => Ok (map fst groups)
  end.

(** [df.reset_index().to_dict(orient="records")]: one dictionary per row,
    the index first, under its name. *)
Definition df_records (df : DataFrame) : list value :=
  match df with
  | Flat name columns rows =>
      map (fun r => VDict ((VStr name, VTime (fst r))
                             :: combine (map VStr columns) (snd r))) rows
  | Multi name groups rows =>
      map (fun r =>
             VDict ((VTuple [VStr name; VStr EmptyString], VTime (fst r))
                      :: List.concat
                           (map (fun gv =>
                                   combine
                                     (map (fun c => VTuple [VStr (fst (fst gv)); VStr c])
                                          (snd (fst gv)))
                                     (snd gv))
                                (combine groups (snd r))))) rows
  end.

(* ------------------------------------------------------------------ *)
(** ** The provider, the process state and the handler monad *)

(** The upstream requests the module issues through yfinance. *)
Inductive Call : Type :=
| CallHistory (ticker period interval : string)
    (* yf.Ticker(t).history(period=, interval=) *)
| CallHistoryRange (ticker : string) (start : option datetime)
                   (end_ : datetime) (interval : string)
    (* yf.Ticker(t).history(start=, end=, interval=) *)
| CallInfo (ticker : string)
    (* yf.Ticker(t).info *)
| CallDownload (tickers period interval : string)
    (* yf.download(tickers, period=, interval=, group_by='ticker') *)
| CallDownloadRange (tickers : list string) (start : option datetime)
                    (end_ : datetime) (interval : string).
    (* yf.download(tickers, start=, end=, interval=) *)

(** The provider answers a request, knowing how many came before it. *)
Record Provider : Type := {
  answer_frame : nat -> Call -> PyResult DataFrame;
  answer_info : nat -> string -> PyResult (dict value)
}.

(** Cache key of [get_stock_data]: every call site passes the ticker
    positionally and [period], [interval] by keyword, so the key is the
    triple. *)
Definition Key : Type := (string * string * string)%type.

Definition key_eqb (a b : Key) : bool :=
  String.eqb (fst (fst a)) (fst (fst b))
  && String.eqb (snd (fst a)) (snd (fst b))
  && String.eqb (snd a) (snd b).

(** The [lru_cache] store, most recently used first, and the log of
    upstream requests, latest first. *)
Record State : Type := {
  cache : list (Key * option DataFrame);
  calls : list Call
}.

Definition M (A : Type) : Type := State -> PyResult A * State.

Definition ret {A : Type} (a : A) : M A := fun st => (Ok a, st).

Definition raise {A : Type} (e : PyExc) : M A := fun st => (Raise e, st).

Definition bind {A B : Type} (m : M A) (k : A -> M B) : M B :=
  fun st =>
    match m st with
    | (Ok a, st') => k a st'
    | (Raise e, st') => (Raise e, st')
    end.

(** A pure computation that may raise. *)
Definition lift {A : Type} (r : PyResult A) : M A := fun st => (r, st).

(** [try: body except Exception as e: handler(e)] *)
Definition try_except {A : Type} (body : M A) (handler : PyExc -> M A) : M A :=
  fun st =>
    match body st with
    | (Ok a, st') => (Ok a, st')
    | (Raise e, st') => handler e st'
    end.

Declare Scope py_scope.
Delimit Scope py_scope with py.
Notation "x <- m ;; k" := (bind m (fun x => k))
  (at level 100, m at next level, right associativity) : py_scope.
Notation "' p <- m ;; k" := (bind m (fun x => let 'p := x in k))
  (at level 100, p pattern, m at next level, right associativity) : py_scope.
Local Open Scope py_scope.

(* ------------------------------------------------------------------ *)
(** ** [functools.lru_cache(maxsize)] for a positive [maxsize] *)

Fixpoint lru_find {V : Type} (k : Key) (c : list (Key * V)) : option V :=
  match c with
  | [] => None
  | (k', v) :: c' => if key_eqb k k' then Some v else lru_find k c'
  end.

Fixpoint lru_remove {V : Type} (k : Key) (c : list (Key * V)) : list (Key * V) :=
  match c with
  | [] => []
  | (k', v) :: c' => if key_eqb k k' then c' else (k', v) :: lru_remove k c'
  end.

(** A hit moves the entry to the front of the queue. *)
Definition lru_touch {V : Type} (k : Key) (v : V) (c : list (Key * V))
  : list (Key * V) :=
  (k, v) :: lru_remove k c.

(** A new result goes to the front; a full cache first gives up its oldest
    entry. *)
Definition lru_store {V : Type} (maxsize : nat) (k : Key) (v : V)
  (c : list (Key * V)) : list (Key * V) :=
  if (maxsize <=? List.length c)%nat then (k, v) :: removelast c
  else (k, v) :: c.

Definition set_cache (c : list (Key * option DataFrame)) (st : State) : State :=
  {| cache := c; calls := calls st |}.

Definition log_call (c : Call) (st : State) : State :=
  {| cache := cache st; calls := c :: calls st |}.

(** The wrapper: a hit returns the stored result without running [f]; a
    miss runs [f] and stores what it returns; an exception of [f] passes
    through and nothing is stored. *)
Definition lru_cache (maxsize : nat) (f : Key -> M (option DataFrame))
  (k : Key) : M (option DataFrame) :=
  fun st =>
    match lru_find k (cache st) with
    | Some v => (Ok v, set_cache (lru_touch k v (cache st)) st)
    | None =>
        match f k st with
        | (Ok v, st') =>
            match lru_find k (cache st') with
            | Some _ => (Ok v, st')
            | None => (Ok v, set_cache (lru_store maxsize k v (cache st')) st')
            end
        | (Raise e, st') => (Raise e, st')
        end
    end.

(* ------------------------------------------------------------------ *)
(** ** Module constants *)

Definition TIME_PERIODS : dict (option Z) :=
  [("30d", Some 30); ("90d", Some 90); ("1y", Some 365); ("all", None)].

Definition EXCHANGE_MAPPING : dict string :=
  [("nse", ".NS"); ("bse", ".BO"); ("nasdaq", EmptyString); ("nyse", EmptyString)].

Definition INDICES_MAPPING : dict string :=
  [("nifty50", "^NSEI"); ("sensex", "^BSESN"); ("sp500", "^GSPC");
   ("dow", "^DJI"); ("nasdaq", "^IXIC"); ("ftse", "^FTSE");
   ("nikkei", "^N225")].

Definition FOREX_MAPPING : dict string :=
  [("usd_inr", "USD/INR=X"); ("eur_inr", "EUR/INR=X");
   ("gbp_usd", "GBP/USD=X"); ("eur_usd", "EUR/USD=X");
   ("jpy_usd", "JPY/USD=X")].

(** [get_date_range(period)], with the reading of [datetime.now()]. *)
Definition get_date_range (now : datetime) (period : string)
  : PyResult (option datetime * datetime) :=
  let days := dict_get TIME_PERIODS period (Some 90) in
  let end_date := now in
  match days with
  | None => Ok (None, end_date)
  | Some d =>
      match datetime_sub end_date (timedelta d) with
      | Ok start_date => Ok (Some start_date, end_date)
      | Raise e => Raise e
      end
  end.

(* ------------------------------------------------------------------ *)
(** ** The fetch functions *)

Section Backend.

Variable yf : Provider.

(** One upstream request for a frame: answered by the provider, logged. *)
Definition upstream_frame (c : Call) : M DataFrame :=
  fun st => (answer_frame yf (List.length (calls st)) c, log_call c st).

(** [yf.Ticker(symbol).info] *)
Definition ticker_info (symbol : string) : M (dict value) :=
  fun st =>
    (answer_info yf (List.length (calls st)) symbol, log_call (CallInfo symbol) st).

(** The body of [get_stock_data]; the [print] of the handler is not
    modelled. *)
Definition get_stock_data_body (k : Key) : M (option DataFrame) :=
  let '(ticker, period, interval) := k in
  try_except
    (data <- upstream_frame (CallHistory ticker period interval) ;;
     ret (Some data))
    (fun _ => ret None).

Definition maxsize : nat := 1000.

(** [@lru_cache(maxsize=1000) def get_stock_data(ticker, period, interval)] *)
Definition get_stock_data (ticker period interval : string)
  : M (option DataFrame) :=
  lru_cache maxsize get_stock_data_body (ticker, period, interval).

(** The loop of [get_multiple_stocks]; [n] is [len(tickers)]. *)
Fixpoint split_by_ticker (n : nat) (data : DataFrame) (tickers : list string)
  (results : dict DataFrame) : PyResult (dict DataFrame) :=
  match tickers with
  | [] => Ok results
  | ticker :: rest =>
      if (1 <? n)%nat then
        match df_getitem data ticker with
        | Ok part => split_by_ticker n data rest (dict_set results ticker part)
        | Raise e => Raise e
        end
      else split_by_ticker n data rest (dict_set results ticker data)
  end.

Definition get_multiple_stocks (tickers : list string) (period interval : string)
  : M (option (dict DataFrame)) :=
  try_except
    (data <- upstream_frame (CallDownload (PyStr.join " " tickers) period interval) ;;
     results <- lift (split_by_ticker (List.length tickers) data tickers []) ;;
     ret (Some results))
    (fun _ => ret None).

(* ------------------------------------------------------------------ *)
(** ** The endpoint handlers *)

(** The reading of [datetime.now()] during the request. *)
Variable now : datetime.

(** [yf.Ticker(symbol).history(start=, end=, interval=)] *)
Definition history_range (symbol : string) (start_date : option datetime)
  (end_date : datetime) (interval : string) : M DataFrame :=
  upstream_frame (CallHistoryRange symbol start_date end_date interval).

(** [if exchange and exchange.lower() in EXCHANGE_MAPPING: ...] *)
Definition apply_exchange (symbol : string) (exchange : option string)
  : PyResult string :=
  match exchange with
  | Some ex =>
      if PyStr.truthy ex && dict_mem EXCHANGE_MAPPING (PyStr.lower ex) then
        match dict_index EXCHANGE_MAPPING (PyStr.lower ex) with
        | Ok suffix =>
            if negb (PyStr.endswith symbol suffix) then Ok (symbol ++ suffix)
            else Ok symbol
        | Raise e => Raise e
        end
      else Ok symbol
  | None => Ok symbol
  end.

(** [GET /stock/{symbol}] *)
Definition get_stock_data_endpoint (symbol period interval : string)
  (exchange : option string) : M value :=
  try_except
    (symbol <- lift (apply_exchange symbol exchange) ;;
     '(start_date, end_date) <- lift (get_date_range now period) ;;
     data <- get_stock_data symbol period interval ;;
     data <- match data with
             | None => history_range symbol start_date end_date interval
             | Some d => ret d
             end ;;
     info <- ticker_info symbol ;;
     let name := dict_get info "shortName" (VStr "Unknown") in
     let sector := dict_get info "sector" (VStr "Unknown") in
     let market_cap := dict_get info "marketCap" (VStr "Unknown") in
     if df_empty data then
       raise (HTTPException 404 ("No data found for " ++ symbol ++ "."))
     else
       let live_price :=
         dict_get info "currentPrice" (dict_get info "regularMarketPrice" VNone) in
       ret (obj [("symbol", VStr symbol); ("name", name); ("sector", sector);
                 ("market_cap", market_cap); ("live_price", live_price);
                 ("period", VStr period); ("interval", VStr interval);
                 ("data", VList (df_records data))]))
    (fun e => raise (HTTPException 500 (exc_str e))).

(** [GET /forex/{pair}] *)
Definition get_forex_data (pair period interval : string) : M value :=
  try_except
    (let symbol := dict_get FOREX_MAPPING (PyStr.lower pair) pair in
     let symbol := if negb (PyStr.endswith symbol "=X") then symbol ++ "=X"
                   else symbol in
     info <- ticker_info symbol ;;
     let name := dict_get info "shortName" (VStr symbol) in
     '(start_date, end_date) <- lift (get_date_range now period) ;;
     data <- get_stock_data symbol period interval ;;
     data <- match data with
             | None => history_range symbol start_date end_date interval
             | Some d => ret d
             end ;;
     if df_empty data then
       raise (HTTPException 404 ("No data found for forex pair " ++ pair ++ "."))
     else
       let live_rate := dict_get info "regularMarketPrice" VNone in
       ret (obj [("symbol", VStr symbol); ("name", name);
                 ("live_rate", live_rate);
                 ("period", VStr period); ("interval", VStr interval);
                 ("data", VList (df_records data))]))
    (fun e => raise (HTTPException 500 (exc_str e))).

(** [GET /index/{symbol}] *)
Definition get_index_data (symbol period interval : string) : M value :=
  let actual_symbol := dict_get INDICES_MAPPING (PyStr.lower symbol) symbol in
  try_except
    (info <- ticker_info actual_symbol ;;
     let name := dict_get info "shortName" (VStr actual_symbol) in
     '(start_date, end_date) <- lift (get_date_range now period) ;;
     data <- get_stock_data actual_symbol period interval ;;
     data <- match data with
             | None => history_range actual_symbol start_date end_date interval
             | Some d => ret d
             end ;;
     if df_empty data then
       raise (HTTPException 404 ("No data found for index " ++ symbol ++ "."))
     else
       let live_value := dict_get info "regularMarketPrice" VNone in
       ret (obj [("symbol", VStr actual_symbol); ("name", name);
                 ("live_value", live_value);
                 ("period", VStr period); ("interval", VStr interval);
                 ("data", VList (df_records data))]))
    (fun e => raise (HTTPException 500 (exc_str e))).

(** [GET /mutual-fund/{symbol}] *)
Definition get_mutual_fund_data (symbol period interval : string) : M value :=
  try_except
    (info <- ticker_info symbol ;;
     let name := dict_get info "shortName" (VStr "Unknown") in
     let category := dict_get info "category" (VStr "Unknown") in
     '(start_date, end_date) <- lift (get_date_range now period) ;;
     data <- get_stock_data symbol period interval ;;
     data <- match data with
             | None => history_range symbol start_date end_date interval
             | Some d => ret d
             end ;;
     if df_empty data then
       raise (HTTPException 404 ("No data found for mutual fund " ++ symbol ++ "."))
     else
       let live_nav := dict_get info "regularMarketPrice" VNone in
       ret (obj [("symbol", VStr symbol); ("name", name);
                 ("category", category); ("live_nav", live_nav);
                 ("period", VStr period); ("interval", VStr interval);
                 ("data", VList (df_records data))]))
    (fun e => raise (HTTPException 500 (exc_str e))).

(** The field loop of the comparison fall-back. *)
Fixpoint reshape_by_field (data : DataFrame) (fields : list string)
  (result : dict value) : PyResult (dict value) :=
  match fields with
  | [] => Ok result
  | field :: rest =>
      match df_levels0 data with
      | Ok levels =>
          if existsb (String.eqb field) levels then
            match df_getitem data field with
            | Ok field_data =>
                reshape_by_field data rest
                  (dict_set result field (VList (df_records field_data)))
            | Raise e => Raise e
            end
          else reshape_by_field data rest result
      | Raise e => Raise e
      end
  end.

Definition FIELDS : list string := ["Open"; "High"; "Low"; "Close"; "Volume"].

(** [for ticker, ticker_data in result.items(): formatted_result[ticker] = ...] *)
Definition format_result (result : dict DataFrame) : dict value :=
  fold_left (fun formatted kv =>
               dict_set formatted (fst kv) (VList (df_records (snd kv))))
            result [].

(** [not result] for the outcome of the batch fetch: [None] and the empty
    dictionary are falsy. *)
Definition falsy_result (result : option (dict DataFrame)) : bool :=
  match result with
  | None => true
  | Some d => is_nil d
  end.

(** [symbol_list[0]] *)
Definition first_symbol (symbol_list : list string) : PyResult string :=
  match symbol_list with
  | s :: _ => Ok s
  | [] => Raise (Error "IndexError" "list index out of range")
  end.

(** [GET /compare/] *)
Definition compare_instruments (symbols period interval : string) : M value :=
  let symbol_list := map PyStr.strip (PyStr.split "," symbols) in
  try_except
    ('(start_date, end_date) <- lift (get_date_range now period) ;;
     if (1 <? List.length symbol_list)%nat then
       result <- get_multiple_stocks symbol_list period interval ;;
       if falsy_result result then
         data <- upstream_frame
                   (CallDownloadRange symbol_list start_date end_date interval) ;;
         if df_empty data then
           raise (HTTPException 404 "No data found for the specified symbols.")
         else
           result <- lift (reshape_by_field data FIELDS []) ;;
           ret (obj [("symbols", VList (map VStr symbol_list));
                     ("period", VStr period); ("interval", VStr interval);
                     ("data", obj result)])
       else
         let formatted_result :=
           format_result (match result with Some d => d | None => [] end) in
         ret (obj [("symbols", VList (map VStr symbol_list));
                   ("period", VStr period); ("interval", VStr interval);
                   ("data", obj formatted_result)])
     else
       symbol0 <- lift (first_symbol symbol_list) ;;
       data <- get_stock_data symbol0 period interval ;;
       data <- match data with
               | None => history_range symbol0 start_date end_date interval
               | Some d => ret d
               end ;;
       ret (obj [("symbol", VStr symbol0);
                 ("period", VStr period); ("interval", VStr interval);
                 ("data", VList (df_records data))]))
    (fun e => raise (HTTPException 500 (exc_str e))).

End Backend.

(** A curated fund, [{"name": ..., "symbol": ...}]. *)
Definition fund (name symbol : string) : value :=
  obj [("name", VStr name); ("symbol", VStr symbol)].

Definition popular_funds : dict (list value) :=
  [("equity",
    [fund "HDFC Top 100 Fund" "0P0000XVOI.BO";
     fund "SBI Bluechip Fund" "0P0000YCNI.BO";
     fund "Axis Bluechip Fund" "0P0000Z5X9.BO";
     fund "Mirae Asset Large Cap Fund" "0P0000YD2F.BO"]);
   ("debt",
    [fund "HDFC Corporate Bond Fund" "0P0000YWLG.BO";
     fund "SBI Corporate Bond Fund" "0P0000ZM1O.BO";
     fund "Kotak Corporate Bond Fund" "0P0000Y5QE.BO"]);
   ("hybrid",
    [fund "ICICI Prudential Balanced Advantage Fund" "0P0000XVE2.BO";
     fund "HDFC Balanced Advantage Fund" "0P0000XV7Y.BO"])].

(** [{"funds": {cat: funds for cat, funds in popular_funds.items()}}] *)
Definition all_funds : value :=
  obj [("funds", obj (map (fun cf => (fst cf, VList (snd cf))) popular_funds))].

(** [GET /mutual-funds/india/popular]; [None] is an absent parameter.  The
    handler touches neither the provider nor the cache. *)
Definition get_popular_indian_mutual_funds (category : option string) : M value :=
  match category with
  | Some c =>
      if PyStr.truthy c && dict_mem popular_funds (PyStr.lower c) then
        funds <- lift (dict_index popular_funds (PyStr.lower c)) ;;
        ret (obj [("funds", VList funds)])
      else ret all_funds
  | None => ret all_funds
  end.

(* ------------------------------------------------------------------ *)
(** ** What FastAPI sends for the outcome of a handler *)

Record Response : Type := {
  status : Z;
  body : value
}.

(** A returned value is sent with status 200; an [HTTPException] with its
    own status and its detail; anything else is a bare 500. *)
Definition respond (r : PyResult value) : Response :=
  match r with
  | Ok v => {| status := 200; body := v |}
  | Raise (HTTPException code detail) =>
      {| status := code; body := obj [("detail", VStr detail)] |}
  | Raise (Error _ _) =>
      {| status := 500; body := VStr "Internal Server Error" |}
  end.

(* ------------------------------------------------------------------ *)
(** ** Vocabulary of the properties *)

(** A clock at least 365 days past [datetime.min] and within the range of
    [datetime]: every clock a running server reads. *)
Definition clock_ok (now : datetime) : Prop :=
  timedelta 365 <= now <= datetime_max.

(** 2026-01-01T00:00, as a distance from [datetime.min]. *)
Definition new_year_2026 : datetime := 739616 * us_per_day.

Definition equity_funds : list value :=
  [fund "HDFC Top 100 Fund" "0P0000XVOI.BO";
   fund "SBI Bluechip Fund" "0P0000YCNI.BO";
   fund "Axis Bluechip Fund" "0P0000Z5X9.BO";
   fund "Mirae Asset Large Cap Fund" "0P0000YD2F.BO"].

(** The parameter is absent, or its lower-cased value is no category. *)
Definition unrecognised (category : option string) : Prop :=
  match category with
  | None => True
  | Some c => ~ In (PyStr.lower c) ["equity"; "debt"; "hybrid"]
  end.

(** Position of a key in the recency queue of the cache. *)
Fixpoint lru_rank {V : Type} (k : Key) (c : list (Key * V)) : option nat :=
  match c with
  | [] => None
  | (k', _) :: c' =>
      if key_eqb k k' then Some O
      else match lru_rank k c' with Some i => Some (S i) | None => None end
  end.

(** An entry for [k] with value [v] no deeper than [n] in the queue. *)
Definition held (k : Key) (v : option DataFrame) (n : nat)
  (c : list (Key * option DataFrame)) : Prop :=
  lru_find k c = Some v /\ exists i, lru_rank k c = Some i /\ (i <= n)%nat.

(** A run of calls to the memoized fetch, one per key, in order. *)
Fixpoint run_fetches (yf : Provider) (keys : list Key) (st : State) : State :=
  match keys with
  | [] => st
  | (ticker, period, interval) :: rest =>
      run_fetches yf rest (snd (get_stock_data yf ticker period interval st))
  end.

(** *** Sample providers and data for the worked instances *)

Definition no_state : State := {| cache := []; calls := [] |}.

Definition day (n : Z) : datetime := n * us_per_day.

(** Daily bars of one instrument. *)
Definition sample_bars : DataFrame :=
  Flat "Date" ["Open"; "High"; "Low"; "Close"; "Volume"]
       [(day 739614, [VNum 101; VNum 105; VNum 99; VNum 104; VNum 5000]);
        (day 739615, [VNum 104; VNum 106; VNum 103; VNum 105; VNum 4200])].

(** A frame with no rows, as yfinance answers for an unknown symbol. *)
Definition no_bars : DataFrame :=
  Flat "Date" ["Open"; "High"; "Low"; "Close"; "Volume"] [].

(** The answer to a download grouped by ticker. *)
Definition sample_by_ticker : DataFrame :=
  Multi "Date"
        [("AAPL", ["Open"; "Close"]); ("MSFT", ["Open"; "Close"])]
        [(day 739614, [[VNum 101; VNum 104]; [VNum 301; VNum 303]]);
         (day 739615, [[VNum 104; VNum 105]; [VNum 303; VNum 299]])].

(** The answer to a download grouped by column. *)
Definition sample_by_field : DataFrame :=
  Multi "Date"
        [("Close", ["AAPL"; "MSFT"]); ("Open", ["AAPL"; "MSFT"])]
        [(day 739614, [[VNum 104; VNum 303]; [VNum 101; VNum 301]]);
         (day 739615, [[VNum 105; VNum 299]; [VNum 104; VNum 303]])].

Definition sample_info : dict value :=
  [("shortName", VStr "Apple Inc."); ("sector", VStr "Technology");
   ("marketCap", VNum 3000000000000); ("regularMarketPrice", VNum 105)].

Definition connection_error : PyExc :=
  Error "ConnectionError" "upstream unreachable".

(** A provider that answers every request. *)
Definition steady : Provider := {|
  answer_frame := fun _ c =>
    match c with
    | CallDownload _ _ _ => Ok sample_by_ticker
    | CallDownloadRange _ _ _ _ => Ok sample_by_field
    | _ => Ok sample_bars
    end;
  answer_info := fun _ _ => Ok sample_info
|}.

(** A provider down for the very first request only. *)
Definition flaky : Provider := {|
  answer_frame := fun n c =>
    match n with
    | O => Raise connection_error
    | S _ => answer_frame steady n c
    end;
  answer_info := fun _ _ => Ok sample_info
|}.

(** A provider that is unreachable. *)
Definition down : Provider := {|
  answer_frame := fun _ _ => Raise connection_error;
  answer_info := fun _ _ => Raise connection_error
|}.

(** A provider that knows no instrument: empty history, empty metadata. *)
Definition unknown_everywhere : Provider := {|
  answer_frame := fun _ _ => Ok no_bars;
  answer_info := fun _ _ => Ok []
|}.

(** The instrument a single-instrument request is about. *)
Definition call_ticker (c : Call) : option string :=
  match c with
  | CallHistory t _ _ => Some t
  | CallHistoryRange t _ _ _ => Some t
  | CallInfo t => Some t
  | CallDownload _ _ _ => None
  | CallDownloadRange _ _ _ _ => None
  end.

(** The direct, uncached history requests in a log. *)
Definition is_history_range (c : Call) : bool :=
  match c with CallHistoryRange _ _ _ _ => true | _ => false end.

Definition count_range (log : list Call) : nat :=
  List.length (filter is_history_range log).

(** The memoized fetch handed back the failure sentinel. *)
Definition sentinel (r : PyResult (option DataFrame)) : bool :=
  match r with Ok None => true | _ => false end.

(** A record that starts with its timestamp. *)
Definition timestamped (record : value) : Prop :=
  match record with
  | VDict ((_, VTime _) :: _) => True
  | _ => False
  end.

(** The state in which a handler that reads the metadata first reaches the
    memoized fetch. *)
Definition after_info (symbol : string) (st : State) : State :=
  log_call (CallInfo symbol) st.

(** The symbol the forex handler resolves a pair to. *)
Definition forex_symbol (pair : string) : string :=
  let symbol := dict_get FOREX_MAPPING (PyStr.lower pair) pair in
  if negb (PyStr.endswith symbol "=X") then symbol ++ "=X" else symbol.

(** The symbol the index handler resolves a nickname to. *)
Definition index_symbol (symbol : string) : string :=
  dict_get INDICES_MAPPING (PyStr.lower symbol) symbol.

(** A cache that holds the failure sentinel for AAPL, as a failed first
    fetch leaves it. *)
Definition poisoned : State :=
  {| cache := [(("AAPL", "90d", "1d"), None)]; calls := [] |}.

(** The fall-back rule in the words of the handler description: a ranged
    request is issued on a cache miss only, and not when the memoized
    fetch hands back the failure sentinel.  Stated for the stock handler
    without an exchange. *)
Definition fallback_on_miss_only : Prop :=
  forall (yf : Provider) (now : datetime) (symbol p i : string) (st : State),
    let fetched := get_stock_data yf symbol p i st in
    let run := get_stock_data_endpoint yf now symbol p i None st in
    ((count_range (calls st) < count_range (calls (snd run)))%nat ->
     lru_find (symbol, p, i) (cache st) = None)
    /\ (sentinel (fst fetched) = true ->
        count_range (calls (snd run)) = count_range (calls st)).

(** [n] distinct keys, none of them for AAPL. *)
Definition other_keys (n : nat) : list Key :=
  map (fun k => (PyStr.of_Z (Z.of_nat k), "1d", "1h")) (seq 0 n).

(* ------------------------------------------------------------------ *)
(** ** The search handler *)

(** [sub in s] for strings. *)
Fixpoint str_contains (s sub : string) : bool :=
  match s with
  | EmptyString => PyStr.startswith s sub
  | String _ s' => PyStr.startswith s sub || str_contains s' sub
  end.

Definition upper_char (c : ascii) : ascii :=
  let n := nat_of_ascii c in
  if (97 <=? n)%nat && (n <=? 122)%nat then ascii_of_nat (n - 32) else c.

(** [s.capitalize()] *)
Definition str_capitalize (s : string) : string :=
  match s with
  | EmptyString => EmptyString
  | String c s' => String (upper_char c) (PyStr.lower s')
  end.

(** [s.replace(old, new)] for a non-empty [old]: [skip] counts the
    characters of a match still to be passed over. *)
Fixpoint replace_from (old new : string) (skip : nat) (s : string) : string :=
  match s with
  | EmptyString => EmptyString
  | String c s' =>
      match skip with
      | S k => replace_from old new k s'
      | O =>
          if PyStr.startswith s old
          then new ++ replace_from old new (String.length old - 1) s'
          else String c (replace_from old new 0 s')
      end
  end.

(** [s.replace("", new)]: [new] before every character and at the end. *)
Fixpoint interleave (new s : string) : string :=
  match s with
  | EmptyString => new
  | String c s' => new ++ String c (interleave new s')
  end.

(** [s.replace(old, new)] *)
Definition str_replace (s old new : string) : string :=
  match old with
  | EmptyString => interleave new s
  | String _ _ => replace_from old new 0 s
  end.

(** [l[:limit]]: a negative bound counts from the end, [None] is no
    bound. *)
Definition slice_to {A : Type} (limit : option Z) (l : list A) : list A :=
  match limit with
  | None => l
  | Some n =>
      if 0 <=? n then firstn (Z.to_nat n) l
      else firstn (List.length l - Z.to_nat (- n)) l
  end.

(** [v in codes] for a value read out of the metadata. *)
Definition value_in (v : value) (codes : list string) : bool :=
  match v with
  | VStr s => existsb (String.eqb s) codes
  | _ => false
  end.

(** [type is None or type == kind] *)
Definition type_allows (type : option string) (kind : string) : bool :=
  match type with
  | None => true
  | Some t => String.eqb t kind
  end.

Section Search.

Variable yf : Provider.

(** The names of [yf.Tickers(query).tickers], in order: how yfinance parses
    a query into ticker names is left to the library. *)
Variable tickers_of : string -> PyResult (list string).

(** The loop over [tickers.tickers.items()]: a ticker whose metadata cannot
    be read is passed over. *)
Fixpoint search_stocks (names : list string) (results : list value)
  : M (list value) :=
  match names with
  | [] => ret results
  | ticker_name :: rest =>
      results <- try_except
                   (info <- ticker_info yf ticker_name ;;
                    let exchange :=
                      if str_contains ticker_name ".NS" then "NSE"
                      else if str_contains ticker_name ".BO" then "BSE"
                      else if value_in (dict_get info "exchange" VNone)
                                       ["NMS"; "NGS"; "NCM"; "NGM"] then "NASDAQ"
                      else if value_in (dict_get info "exchange" VNone)
                                       ["NYQ"; "PSE"; "PCX"; "ASE"; "AMX"] then "NYSE"
                      else EmptyString in
                    if value_in (dict_get info "quoteType" VNone) ["EQUITY"] then
                      ret (results
                             ++ [obj [("symbol", VStr ticker_name);
                                      ("name", dict_get info "shortName" (VStr "Unknown"));
                                      ("exchange", VStr exchange);
                                      ("type", VStr "stock")]])%list
                    else ret results)
                   (fun _ => ret results) ;;
      search_stocks rest results
  end.

(** The loop over [FOREX_MAPPING.items()]. *)
Definition search_forex (query : string) (results : list value) : list value :=
  fold_left
    (fun results ks =>
       let '(key, symbol) := ks in
       if str_contains key (PyStr.lower query)
          || str_contains (PyStr.lower symbol) (PyStr.lower query)
       then (results
               ++ [obj [("symbol", VStr symbol);
                        ("name", VStr (str_replace symbol "=X" EmptyString));
                        ("type", VStr "forex")]])%list
       else results)
    FOREX_MAPPING results.

(** The loop over [INDICES_MAPPING.items()]. *)
Definition search_indices (query : string) (results : list value) : list value :=
  fold_left
    (fun results ks =>
       let '(key, symbol) := ks in
       if str_contains key (PyStr.lower query)
          || str_contains (PyStr.lower symbol) (PyStr.lower query)
       then (results
               ++ [obj [("symbol", VStr symbol);
                        ("name", VStr (str_capitalize key));
                        ("type", VStr "index")]])%list
       else results)
    INDICES_MAPPING results.

(** [GET /search/] *)
Definition search_instruments (query : string) (limit : option Z)
  (type : option string) : M value :=
  try_except
    (let results := [] in
     results <- (if type_allows type "stock" then
                   names <- lift (tickers_of query) ;;
                   search_stocks names results
                 else ret results) ;;
     let results :=
       if type_allows type "forex" then search_forex query results else results in
     let results :=
       if type_allows type "index" then search_indices query results else results in
     ret (obj [("results", VList (slice_to limit results))]))
    (fun e => raise (HTTPException 500 (exc_str e))).

End Search.

(** [GET /] *)
Definition root : value :=
  obj [("message", VStr "Welcome to the Enhanced Financial Data API!");
       ("features",
        VList [VStr "Stock Data (Indian & Global)";
               VStr "Forex Trading Data";
               VStr "Index Fund Data";
               VStr "Mutual Fund Data"])].

(** yfinance's own parsing of a query, for the worked instances: names are
    separated by blanks or commas. *)
Definition blank_separated (query : string) : PyResult (list string) :=
  Ok (filter PyStr.truthy
        (List.concat (map (PyStr.split " ") (PyStr.split "," query)))).

(** A cache within its capacity that holds no key twice. *)
Definition cache_ok (c : list (Key * option DataFrame)) : Prop :=
  (List.length c <= maxsize)%nat /\ NoDup (map fst c).

(** The number of upstream requests issued between two states. *)
Definition request_count (st st' : State) : nat :=
  List.length (calls st') - List.length (calls st).

(** Between two states, one to three upstream requests were issued, every
    one of them for the given symbol. *)
Definition asked_only_for (symbol : string) (st st' : State) : Prop :=
  exists issued,
    calls st' = (issued ++ calls st)%list
    /\ (1 <= List.length issued <= 3)%nat
    /\ Forall (fun c => call_ticker c = Some symbol) issued.

(** An alias of a table matches a query: the lower-cased query occurs in
    the alias or in the lower-cased symbol. *)
Definition alias_matches (query : string) (ks : string * string) : bool :=
  str_contains (fst ks) (PyStr.lower query)
  || str_contains (PyStr.lower (snd ks)) (PyStr.lower query).

(** The search result for an alias of the forex table. *)
Definition forex_entry (ks : string * string) : value :=
  obj [("symbol", VStr (snd ks));
       ("name", VStr (str_replace (snd ks) "=X" EmptyString));
       ("type", VStr "forex")].

(** The search result for an alias of the index table. *)
Definition index_entry (ks : string * string) : value :=
  obj [("symbol", VStr (snd ks));
       ("name", VStr (str_capitalize (fst ks)));
       ("type", VStr "index")].

(** The upstream log after the metadata of each name was asked for, in
    order. *)
Definition after_infos (names : list string) (st : State) : State :=
  {| cache := cache st; calls := (rev (map CallInfo names) ++ calls st)%list |}.

(** What a search finds in the two alias tables, forex before indices,
    each table in its own order. *)
Definition alias_results (type : option string) (query : string) : list value :=
  ((if type_allows type "forex"
    then map forex_entry (filter (alias_matches query) FOREX_MAPPING) else [])
     ++ (if type_allows type "index"
         then map index_entry (filter (alias_matches query) INDICES_MAPPING) else []))%list.

(** The names a search asks the provider about. *)
Definition searched_names (tickers_of : string -> PyResult (list string))
  (query : string) (type : option string) : PyResult (list string) :=
  if type_allows type "stock" then tickers_of query else Ok [].

(** Metadata of a listed share. *)
Definition listed_info : dict value :=
  [("shortName", VStr "Apple Inc."); ("quoteType", VStr "EQUITY");
   ("exchange", VStr "NMS")].

(** A provider for which every name is a share listed on NASDAQ. *)
Definition all_listed : Provider := {|
  answer_frame := fun _ _ => Ok sample_bars;
  answer_info := fun _ _ => Ok listed_info
|}.
(* ================================================================== *)
(** * Properties *)

(** ** Sanity checks of the string helpers *)

Example lower_NSE : PyStr.lower "NsE" = "nse".
Proof. reflexivity. Qed.

Example endswith_NS : PyStr.endswith "RELIANCE.NS" ".NS" = true.
Proof. reflexivity. Qed.

Example endswith_short : PyStr.endswith "NS" ".NS" = false.
Proof. reflexivity. Qed.

Example split_strip :
  map PyStr.strip (PyStr.split "," " AAPL , MSFT,") = ["AAPL"; "MSFT"; EmptyString].
Proof. reflexivity. Qed.

Example str_404 : PyStr.of_Z 404 = "404".
Proof. reflexivity. Qed.

(* ------------------------------------------------------------------ *)
(** ** The date-range resolver *)

Lemma clock_ok_2026 : clock_ok new_year_2026.
Proof. unfold clock_ok, new_year_2026, timedelta, datetime_max, us_per_day. lia. Qed.

Lemma datetime_sub_days (now : datetime) (d : Z) :
  clock_ok now -> 0 <= d <= 365 ->
  datetime_sub now (timedelta d) = Ok (now - timedelta d).
Proof.
  unfold clock_ok, datetime_sub, timedelta, datetime_max, us_per_day.
  intros Hc Hd.
  replace ((0 <=? now - d * 86400000000) &&
           (now - d * 86400000000 <=? 3652059 * 86400000000 - 1))%bool with true.
  - reflexivity.
  - symmetry. apply andb_true_iff. split; apply Z.leb_le; lia.
Qed.

Lemma get_date_range_listed (now : datetime) (token : string) (d : Z) :
  clock_ok now -> 0 <= d <= 365 ->
  dict_find TIME_PERIODS token = Some (Some d) ->
  get_date_range now token = Ok (Some (now - timedelta d), now).
Proof.
  intros Hc Hd Hf. unfold get_date_range, dict_get. rewrite Hf.
  now rewrite datetime_sub_days.
Qed.

Lemma get_date_range_unlisted (now : datetime) (token : string) :
  clock_ok now ->
  dict_find TIME_PERIODS token = None ->
  get_date_range now token = Ok (Some (now - timedelta 90), now).
Proof.
  intros Hc Hf. unfold get_date_range, dict_get. rewrite Hf.
  rewrite datetime_sub_days; [reflexivity | assumption | lia].
Qed.

Lemma time_periods_unlisted (token : string) :
  ~ In token (dict_keys TIME_PERIODS) -> dict_find TIME_PERIODS token = None.
Proof.
  cbn. intros Hn.
  repeat match goal with
         | |- context [String.eqb token ?k] =>
             destruct (String.eqb_spec token k);
               [exfalso; apply Hn; intuition congruence|]
         end.
  reflexivity.
Qed.

(** C4. For every period token, and any clock of a running server, the
    resolver returns [(start, end)] with [end] the clock's reading; [start]
    is [None] exactly for the token "all"; it is [end] minus 30, 90 and
    365 days for "30d", "90d" and "1y", and [end] minus 90 days for every
    token outside the table.  It returns: no exception is raised. *)
Theorem get_date_range_resolves (now : datetime) (token : string) :
  clock_ok now ->
  exists start,
    get_date_range now token = Ok (start, now)
    /\ (start = None <-> token = "all")
    /\ (token = "30d" -> start = Some (now - timedelta 30))
    /\ (token = "90d" -> start = Some (now - timedelta 90))
    /\ (token = "1y" -> start = Some (now - timedelta 365))
    /\ (~ In token (dict_keys TIME_PERIODS) ->
        start = Some (now - timedelta 90)).
Proof.
  intros Hc.
  destruct (String.eqb_spec token "all") as [->|Hall].
  { exists None. cbn. repeat split; intros; try discriminate; try tauto. }
  destruct (String.eqb_spec token "30d") as [->|H30].
  { exists (Some (now - timedelta 30)).
    rewrite (get_date_range_listed now "30d" 30) by (auto; lia).
    repeat split; intros; try discriminate; try reflexivity.
    exfalso. apply H. cbn. intuition congruence. }
  destruct (String.eqb_spec token "90d") as [->|H90].
  { exists (Some (now - timedelta 90)).
    rewrite (get_date_range_listed now "90d" 90) by (auto; lia).
    repeat split; intros; try discriminate; reflexivity. }
  destruct (String.eqb_spec token "1y") as [->|H1y].
  { exists (Some (now - timedelta 365)).
    rewrite (get_date_range_listed now "1y" 365) by (auto; lia).
    repeat split; intros; try discriminate; try reflexivity.
    exfalso. apply H. cbn. intuition congruence. }
  exists (Some (now - timedelta 90)).
  assert (Hn : ~ In token (dict_keys TIME_PERIODS)).
  { cbn. intros [E|[E|[E|[E|[]]]]]; congruence. }
  rewrite get_date_range_unlisted by auto using time_periods_unlisted.
  repeat split; intros; try discriminate; try congruence.
Qed.

Lemma get_date_range_resolves_witness :
  clock_ok new_year_2026 /\
  exists start,
    get_date_range new_year_2026 "5y" = Ok (start, new_year_2026)
    /\ (start = None <-> "5y" = "all")
    /\ ("5y" = "30d" -> start = Some (new_year_2026 - timedelta 30))
    /\ ("5y" = "90d" -> start = Some (new_year_2026 - timedelta 90))
    /\ ("5y" = "1y" -> start = Some (new_year_2026 - timedelta 365))
    /\ (~ In "5y" (dict_keys TIME_PERIODS) ->
        start = Some (new_year_2026 - timedelta 90)).
Proof.
  assert (Hc : clock_ok new_year_2026).
  { unfold clock_ok, new_year_2026, timedelta, datetime_max, us_per_day. lia. }
  split; [exact Hc | exact (get_date_range_resolves new_year_2026 "5y" Hc)].
Defined.

(* ------------------------------------------------------------------ *)
(** ** The curated fund lists *)

(** C8. [category=equity] is answered with exactly the four curated equity
    funds, status 200, and the handler leaves the process state as it
    found it: no upstream request is logged, the cache is not consulted. *)
Theorem popular_equity_is_static (st : State) :
  get_popular_indian_mutual_funds (Some "equity") st
  = (Ok (obj [("funds", VList equity_funds)]), st)
  /\ List.length equity_funds = 4%nat
  /\ status (respond (fst (get_popular_indian_mutual_funds (Some "equity") st))) = 200
  /\ calls (snd (get_popular_indian_mutual_funds (Some "equity") st)) = calls st.
Proof. repeat split. Qed.

Lemma dict_mem_in {V : Type} (d : dict V) (k : string) :
  dict_mem d k = true <-> In k (dict_keys d).
Proof.
  unfold dict_mem, dict_keys. induction d as [|[k' v] d IH]; cbn.
  - split; [discriminate | tauto].
  - destruct (String.eqb_spec k k') as [->|Hne].
    + split; auto.
    + rewrite IH. split; [tauto | intros [E|H]; [congruence | exact H]].
Qed.

Lemma lower_nonempty_truthy (c : string) :
  PyStr.lower c <> EmptyString -> PyStr.truthy c = true.
Proof. destruct c; cbn; [congruence | reflexivity]. Qed.

(** C10. With the category absent, or set to anything whose lower-cased
    form is not one of equity, debt, hybrid, the handler returns the whole
    table: a mapping from each of the three categories to its full list.
    For a recognised category the "funds" member is a list instead, so the
    two payloads differ in shape. *)
Theorem popular_unrecognised_returns_mapping (category : option string) (st : State) :
  unrecognised category ->
  get_popular_indian_mutual_funds category st
  = (Ok (obj [("funds",
               obj [("equity", VList equity_funds);
                    ("debt", VList (dict_get popular_funds "debt" []));
                    ("hybrid", VList (dict_get popular_funds "hybrid" []))])]), st)
  /\ List.length (dict_get popular_funds "debt" []) = 3%nat
  /\ List.length (dict_get popular_funds "hybrid" []) = 2%nat
  /\ forall c st',
       In (PyStr.lower c) ["equity"; "debt"; "hybrid"] ->
       exists funds,
         get_popular_indian_mutual_funds (Some c) st'
         = (Ok (obj [("funds", VList funds)]), st')
         /\ dict_find popular_funds (PyStr.lower c) = Some funds
         /\ fst (get_popular_indian_mutual_funds (Some c) st')
            <> fst (get_popular_indian_mutual_funds category st).
Proof.
  intros Hun.
  assert (Hall : get_popular_indian_mutual_funds category st = (Ok all_funds, st)).
  { destruct category as [c|]; [|reflexivity].
    unfold get_popular_indian_mutual_funds.
    destruct (dict_mem popular_funds (PyStr.lower c)) eqn:Hm.
    - apply dict_mem_in in Hm. exfalso. apply Hun. exact Hm.
    - now rewrite andb_false_r. }
  rewrite Hall. split; [reflexivity|]. split; [reflexivity|]. split; [reflexivity|].
  intros c st' Hin.
  assert (Hm : dict_mem popular_funds (PyStr.lower c) = true)
    by (apply dict_mem_in; exact Hin).
  assert (Ht : PyStr.truthy c = true).
  { apply lower_nonempty_truthy. intros E. rewrite E in Hin.
    cbn in Hin. intuition discriminate. }
  unfold get_popular_indian_mutual_funds. rewrite Ht, Hm. cbn [andb].
  unfold dict_index, dict_mem in *.
  destruct (dict_find popular_funds (PyStr.lower c)) as [funds|] eqn:Hf;
    [|discriminate].
  exists funds. cbn. repeat split. discriminate.
Qed.

Lemma popular_unrecognised_returns_mapping_witness :
  unrecognised (Some "Gold")
  /\ fst (get_popular_indian_mutual_funds (Some "Gold") {| cache := []; calls := [] |})
     = Ok all_funds.
Proof.
  assert (Hun : unrecognised (Some "Gold")).
  { cbn. intuition discriminate. }
  split; [exact Hun|].
  destruct (popular_unrecognised_returns_mapping
              (Some "Gold") {| cache := []; calls := [] |} Hun) as [E _].
  rewrite E. reflexivity.
Defined.

(* ------------------------------------------------------------------ *)
(** ** The memoized single-instrument fetch *)

Lemma key_eqb_spec (a b : Key) : reflect (a = b) (key_eqb a b).
Proof.
  destruct a as [[a1 a2] a3], b as [[b1 b2] b3]. unfold key_eqb. cbn.
  destruct (String.eqb_spec a1 b1), (String.eqb_spec a2 b2),
    (String.eqb_spec a3 b3); cbn; constructor; congruence.
Qed.

Lemma key_eqb_refl (k : Key) : key_eqb k k = true.
Proof. destruct (key_eqb_spec k k); congruence. Qed.

Lemma key_eqb_sym (a b : Key) : key_eqb a b = key_eqb b a.
Proof. destruct (key_eqb_spec a b), (key_eqb_spec b a); congruence. Qed.

(** One call, unfolded: a hit only reorders the queue; a miss issues one
    history request and stores its outcome, the failure sentinel included. *)
Lemma get_stock_data_run (yf : Provider) (t p i : string) (st : State) :
  get_stock_data yf t p i st =
  match lru_find (t, p, i) (cache st) with
  | Some v => (Ok v, set_cache (lru_touch (t, p, i) v (cache st)) st)
  | None =>
      let v := match answer_frame yf (List.length (calls st)) (CallHistory t p i) with
               | Ok d => Some d
               | Raise _ => None
               end in
      (Ok v, set_cache (lru_store maxsize (t, p, i) v (cache st))
                       (log_call (CallHistory t p i) st))
  end.
Proof.
  unfold get_stock_data, lru_cache.
  destruct (lru_find (t, p, i) (cache st)) eqn:Hf; [reflexivity|].
  unfold get_stock_data_body, try_except, bind, upstream_frame, ret.
  destruct (answer_frame yf (List.length (calls st)) (CallHistory t p i));
    cbn; rewrite Hf; reflexivity.
Qed.

Lemma get_stock_data_returns (yf : Provider) (t p i : string) (st : State) :
  exists v st', get_stock_data yf t p i st = (Ok v, st').
Proof.
  rewrite get_stock_data_run.
  destruct (lru_find (t, p, i) (cache st)); cbn zeta; eauto.
Qed.

(** C9. The memoized fetch always returns: on a hit the stored result, on
    a miss the series the provider answered or, when the provider raised,
    the sentinel [None].  No exception reaches the caller. *)
Theorem get_stock_data_total (yf : Provider) (t p i : string) (st : State) :
  exists v st',
    get_stock_data yf t p i st = (Ok v, st')
    /\ match lru_find (t, p, i) (cache st) with
       | Some cached => v = cached
       | None =>
           match answer_frame yf (List.length (calls st)) (CallHistory t p i) with
           | Ok d => v = Some d
           | Raise _ => v = None
           end
       end.
Proof.
  rewrite get_stock_data_run.
  destruct (lru_find (t, p, i) (cache st)) as [v|].
  - eauto.
  - destruct (answer_frame yf (List.length (calls st)) (CallHistory t p i)); eauto.
Qed.

(** *** The recency queue *)

Section Queue.

Context {V : Type}.
Implicit Types (c : list (Key * V)) (k : Key).

Lemma lru_rank_length k c i : lru_rank k c = Some i -> (i < List.length c)%nat.
Proof.
  revert i. induction c as [|[k' v'] c IH]; cbn; intros i; [discriminate|].
  destruct (key_eqb k k').
  - intros [= <-]. lia.
  - destruct (lru_rank k c) as [j|]; [|discriminate].
    intros [= <-]. specialize (IH j eq_refl). lia.
Qed.

Lemma lru_find_rank k c v : lru_find k c = Some v -> exists i, lru_rank k c = Some i.
Proof.
  induction c as [|[k' v'] c IH]; cbn; [discriminate|].
  destruct (key_eqb k k'); [eauto|].
  intros H. destruct (IH H) as [i ->]. eauto.
Qed.

Lemma lru_rank_removelast k c i :
  lru_rank k c = Some i -> (S i < List.length c)%nat ->
  lru_rank k (removelast c) = Some i /\ lru_find k (removelast c) = lru_find k c.
Proof.
  revert i. induction c as [|[k' v'] c IH]; intros i; [discriminate|].
  intros Hr Hlen.
  assert (Hrl : removelast ((k', v') :: c) = (k', v') :: removelast c).
  { destruct c; [cbn in Hlen; lia | reflexivity]. }
  rewrite Hrl. cbn [lru_rank lru_find List.length] in *.
  destruct (key_eqb k k'); [auto|].
  destruct (lru_rank k c) as [j|] eqn:Hj; [|discriminate].
  injection Hr as <-.
  destruct (IH j eq_refl) as [-> ->]; [lia | auto].
Qed.

Lemma lru_remove_other k k' c i :
  key_eqb k k' = false -> lru_rank k c = Some i ->
  (exists j, lru_rank k (lru_remove k' c) = Some j /\ (j <= i)%nat)
  /\ lru_find k (lru_remove k' c) = lru_find k c.
Proof.
  intros Hne. revert i.
  induction c as [|[k'' v''] c IH]; intros i; [discriminate|].
  cbn [lru_rank lru_find lru_remove].
  destruct (key_eqb k k'') eqn:Hk.
  - intros [= <-]. destruct (key_eqb k' k'') eqn:Hk'.
    + destruct (key_eqb_spec k k''), (key_eqb_spec k' k''), (key_eqb_spec k k');
        congruence.
    + cbn [lru_rank lru_find]. rewrite Hk. eauto.
  - destruct (lru_rank k c) as [j|] eqn:Hj; [|discriminate].
    intros [= <-]. destruct (IH j eq_refl) as [[j' [Hj' Hle]] Hfind].
    destruct (key_eqb k' k'').
    + split; [exists j; split; [exact Hj | lia] | reflexivity].
    + cbn [lru_rank lru_find]. rewrite Hk, Hj'.
      split; [exists (S j'); split; [reflexivity | lia] | exact Hfind].
Qed.

End Queue.

(** A call on any key sinks an entry by at most one place, and does not
    evict it while it is not the oldest of a full cache. *)
Lemma held_step (yf : Provider) (k : Key) (v : option DataFrame) (n : nat)
  (t p i : string) (st : State) :
  held k v n (cache st) -> (S n < maxsize)%nat ->
  held k v (S n) (cache (snd (get_stock_data yf t p i st))).
Proof.
  intros [Hfind [r [Hrank Hle]]] Hn.
  rewrite get_stock_data_run.
  destruct (key_eqb_spec k (t, p, i)) as [<-|Hne].
  - rewrite Hfind. cbn. unfold held, lru_touch. cbn.
    rewrite key_eqb_refl. split; [reflexivity | exists O; split; [reflexivity | lia]].
  - assert (Hb : key_eqb k (t, p, i) = false)
      by (destruct (key_eqb_spec k (t, p, i)); congruence).
    destruct (lru_find (t, p, i) (cache st)) as [v'|] eqn:Hf'.
    + cbn. unfold held, lru_touch. cbn [lru_find lru_rank]. rewrite Hb.
      destruct (lru_remove_other k (t, p, i) (cache st) r Hb Hrank)
        as [[j [Hj Hjle]] Hfj].
      rewrite Hfj, Hj. split; [exact Hfind | exists (S j); split; [reflexivity | lia]].
    + cbn. unfold held, lru_store.
      destruct (maxsize <=? List.length (cache st))%nat eqn:Hfull.
      * apply Nat.leb_le in Hfull.
        destruct (lru_rank_removelast k (cache st) r Hrank) as [Hr Hfr]; [lia|].
        cbn [lru_find lru_rank]. rewrite Hb, Hr, Hfr.
        split; [exact Hfind | exists (S r); split; [reflexivity | lia]].
      * cbn [lru_find lru_rank]. rewrite Hb, Hrank.
        split; [exact Hfind | exists (S r); split; [reflexivity | lia]].
Qed.

Lemma held_run (yf : Provider) (k : Key) (v : option DataFrame)
  (keys : list Key) (n : nat) (st : State) :
  held k v n (cache st) -> (n + List.length keys < maxsize)%nat ->
  held k v (n + List.length keys) (cache (run_fetches yf keys st)).
Proof.
  revert n st. induction keys as [|[[t p] i] keys IH]; intros n st Hh Hn.
  - cbn. now rewrite Nat.add_0_r.
  - cbn [run_fetches List.length] in *.
    replace (n + S (List.length keys))%nat with (S n + List.length keys)%nat by lia.
    apply IH; [|lia]. apply held_step; [exact Hh | lia].
Qed.

(** C2. A provider failure on the first call for a key is stored: the call
    returns the sentinel after one upstream request and leaves the key
    mapped to the sentinel.  After any further calls on any keys, fewer
    than the capacity so that the entry cannot have been evicted, a second
    call on the key returns the sentinel again and issues no upstream
    request. *)
Theorem failure_is_cached (yf : Provider) (t p i : string) (st : State)
  (others : list Key) (e : PyExc) :
  lru_find (t, p, i) (cache st) = None ->
  answer_frame yf (List.length (calls st)) (CallHistory t p i) = Raise e ->
  (List.length others < maxsize)%nat ->
  let first := get_stock_data yf t p i st in
  let between := run_fetches yf others (snd first) in
  let second := get_stock_data yf t p i between in
  fst first = Ok None
  /\ calls (snd first) = CallHistory t p i :: calls st
  /\ lru_find (t, p, i) (cache (snd first)) = Some None
  /\ fst second = Ok None
  /\ calls (snd second) = calls between.
Proof.
  intros Hmiss Hfail Hlen first between second.
  assert (Hfirst : first = (Ok None,
                            set_cache (lru_store maxsize (t, p, i) None (cache st))
                                      (log_call (CallHistory t p i) st))).
  { unfold first. rewrite get_stock_data_run, Hmiss, Hfail. reflexivity. }
  assert (Hheld0 : held (t, p, i) None 0 (cache (snd first))).
  { rewrite Hfirst. cbn. unfold held, lru_store.
    destruct (maxsize <=? List.length (cache st))%nat; cbn;
      rewrite key_eqb_refl; (split; [reflexivity | exists O; split; [reflexivity | lia]]). }
  assert (Hheld : held (t, p, i) None (0 + List.length others) (cache between)).
  { unfold between. apply held_run; [exact Hheld0 | cbn; lia]. }
  destruct Hheld as [Hfind _].
  repeat split.
  - now rewrite Hfirst.
  - now rewrite Hfirst.
  - now destruct Hheld0.
  - unfold second. rewrite get_stock_data_run, Hfind. reflexivity.
  - unfold second. rewrite get_stock_data_run, Hfind. reflexivity.
Qed.

Lemma failure_is_cached_witness :
  lru_find ("AAPL", "1d", "1h") (cache no_state) = None
  /\ answer_frame flaky 0 (CallHistory "AAPL" "1d" "1h") = Raise connection_error
  /\ (List.length [("MSFT", "1d", "1h")] < maxsize)%nat
  /\ fst (get_stock_data flaky "AAPL" "1d" "1h"
            (run_fetches flaky [("MSFT", "1d", "1h")]
               (snd (get_stock_data flaky "AAPL" "1d" "1h" no_state))))
     = Ok None.
Proof.
  assert (H1 : lru_find ("AAPL", "1d", "1h") (cache no_state) = None) by reflexivity.
  assert (H2 : answer_frame flaky (List.length (calls no_state))
                 (CallHistory "AAPL" "1d" "1h") = Raise connection_error)
    by reflexivity.
  assert (H3 : (List.length [("MSFT", "1d", "1h")] < maxsize)%nat)
    by (unfold maxsize; cbn; lia).
  split; [exact H1|]. split; [exact H2|]. split; [exact H3|].
  exact (proj1 (proj2 (proj2 (proj2
    (failure_is_cached flaky "AAPL" "1d" "1h" no_state
       [("MSFT", "1d", "1h")] connection_error H1 H2 H3))))).
Defined.

(** The provider has recovered by the second call, and the cache still
    answers with the stored failure. *)
Example flaky_recovers :
  answer_frame flaky 2 (CallHistory "AAPL" "1d" "1h") = Ok sample_bars.
Proof. reflexivity. Qed.

(* ------------------------------------------------------------------ *)
(** ** The batch fetch *)

Section Dict.

Context {V : Type}.
Implicit Types (d : dict V) (k : string).

Lemma dict_find_set d k v k' :
  dict_find (dict_set d k v) k' = if String.eqb k' k then Some v else dict_find d k'.
Proof.
  induction d as [|[k0 v0] d IH]; cbn.
  - reflexivity.
  - destruct (String.eqb_spec k k0) as [->|Hne]; cbn.
    + destruct (String.eqb_spec k' k0); reflexivity.
    + rewrite IH. destruct (String.eqb_spec k' k0) as [->|]; [|reflexivity].
      destruct (String.eqb_spec k0 k); congruence.
Qed.

Lemma dict_keys_set d k v k' :
  In k' (dict_keys (dict_set d k v)) <-> k' = k \/ In k' (dict_keys d).
Proof.
  unfold dict_keys. induction d as [|[k0 v0] d IH]; cbn.
  - intuition congruence.
  - destruct (String.eqb_spec k k0) as [->|Hne]; cbn.
    + intuition congruence.
    + rewrite IH. intuition congruence.
Qed.

Lemma dict_keys_set_nodup d k v :
  NoDup (dict_keys d) -> NoDup (dict_keys (dict_set d k v)).
Proof.
  unfold dict_keys. induction d as [|[k0 v0] d IH]; cbn; intros Hnd.
  - constructor; [tauto | constructor].
  - inversion Hnd as [|? ? Hnotin Hnd']; subst.
    destruct (String.eqb_spec k k0) as [->|Hne]; cbn.
    + constructor; assumption.
    + constructor; [|auto].
      intros Hin. apply (dict_keys_set d k v k0) in Hin. intuition congruence.
Qed.

End Dict.

(** The loop on a list of more than one ticker: it fails as soon as one
    ticker is missing from the grouped frame, and otherwise files each
    ticker's group under the ticker. *)
Lemma split_by_ticker_fails (n : nat) (data : DataFrame) (tickers : list string)
  (acc : dict DataFrame) (t : string) (e : PyExc) :
  (1 < n)%nat -> In t tickers -> df_getitem data t = Raise e ->
  exists e', split_by_ticker n data tickers acc = Raise e'.
Proof.
  intros Hn. apply Nat.ltb_lt in Hn. revert acc.
  induction tickers as [|t0 ts IH]; intros acc Hin Hget; [destruct Hin|].
  cbn [split_by_ticker]. rewrite Hn.
  destruct (df_getitem data t0) as [part|e0] eqn:H0; [|eauto].
  destruct Hin as [->|Hin]; [congruence|]. now apply IH.
Qed.

Lemma split_by_ticker_splits (n : nat) (data : DataFrame) (tickers : list string)
  (acc : dict DataFrame) :
  (1 < n)%nat ->
  (forall t, In t tickers -> exists part, df_getitem data t = Ok part) ->
  NoDup (dict_keys acc) ->
  exists results,
    split_by_ticker n data tickers acc = Ok results
    /\ NoDup (dict_keys results)
    /\ (forall t, In t (dict_keys results) <-> In t tickers \/ In t (dict_keys acc))
    /\ (forall t part, In t tickers -> df_getitem data t = Ok part ->
                       dict_find results t = Some part)
    /\ (forall t, ~ In t tickers -> dict_find results t = dict_find acc t).
Proof.
  intros Hn. apply Nat.ltb_lt in Hn. revert acc.
  induction tickers as [|t0 ts IH]; intros acc Hall Hnd.
  - exists acc. cbn. repeat split; auto; tauto.
  - cbn [split_by_ticker]. rewrite Hn.
    destruct (Hall t0 (or_introl eq_refl)) as [part0 H0]. rewrite H0.
    destruct (IH (dict_set acc t0 part0)) as (results & Hrun & Hnd' & Hkeys & Hin & Hout).
    { intros t Ht. apply Hall. now right. }
    { now apply dict_keys_set_nodup. }
    exists results. split; [exact Hrun|]. split; [exact Hnd'|]. repeat split.
    + intros Ht. apply Hkeys in Ht. rewrite dict_keys_set in Ht. cbn. intuition.
    + intros Ht. apply Hkeys. rewrite dict_keys_set. cbn in Ht. intuition.
    + intros t part [->|Ht] Hget.
      * destruct (in_dec string_dec t ts) as [Hts|Hts]; [now apply Hin|].
        rewrite Hout by exact Hts. rewrite dict_find_set, String.eqb_refl. congruence.
      * now apply Hin.
    + intros t Ht. cbn in Ht.
      rewrite Hout by tauto. rewrite dict_find_set.
      destruct (String.eqb_spec t t0); [subst; tauto | reflexivity].
Qed.

(** One call of the batch fetch, unfolded. *)
Lemma get_multiple_stocks_run (yf : Provider) (tickers : list string)
  (p i : string) (st : State) :
  get_multiple_stocks yf tickers p i st =
  let request := CallDownload (PyStr.join " " tickers) p i in
  (match answer_frame yf (List.length (calls st)) request with
   | Ok data =>
       match split_by_ticker (List.length tickers) data tickers [] with
       | Ok results => Ok (Some results)
       | Raise _ => Ok None
       end
   | Raise _ => Ok None
   end,
   log_call request st).
Proof.
  unfold get_multiple_stocks, try_except, bind, upstream_frame, lift, ret. cbn.
  destruct (answer_frame yf (List.length (calls st))
              (CallDownload (PyStr.join " " tickers) p i)) as [data|e];
    [|reflexivity].
  destruct (split_by_ticker (List.length tickers) data tickers []); reflexivity.
Qed.

(** C5. The batch fetch issues exactly one combined download for the
    space-joined symbols and never raises.  If the download fails the
    result is the sentinel.  If it answers and there is exactly one symbol,
    the answer itself is filed under the symbol.  If it answers and there
    are several symbols, then either some symbol is missing from the
    grouped answer and the result is the sentinel, nothing partial, or the
    result has exactly the requested symbols as keys, each mapped to its
    group. *)
Theorem batch_fetch_contract (yf : Provider) (tickers : list string)
  (p i : string) (st : State) :
  let request := CallDownload (PyStr.join " " tickers) p i in
  let answer := answer_frame yf (List.length (calls st)) request in
  let run := get_multiple_stocks yf tickers p i st in
  calls (snd run) = request :: calls st
  /\ cache (snd run) = cache st
  /\ (exists outcome, fst run = Ok outcome)
  /\ (forall e, answer = Raise e -> fst run = Ok None)
  /\ (forall data t, answer = Ok data -> tickers = [t] ->
        fst run = Ok (Some [(t, data)]))
  /\ (forall data t e, answer = Ok data -> (1 < List.length tickers)%nat ->
        In t tickers -> df_getitem data t = Raise e -> fst run = Ok None)
  /\ (forall data, answer = Ok data -> (1 < List.length tickers)%nat ->
        (forall t, In t tickers -> exists part, df_getitem data t = Ok part) ->
        exists results,
          fst run = Ok (Some results)
          /\ NoDup (dict_keys results)
          /\ (forall t, In t (dict_keys results) <-> In t tickers)
          /\ (forall t part, In t tickers -> df_getitem data t = Ok part ->
                             dict_find results t = Some part)).
Proof.
  intros request answer run. subst run. rewrite get_multiple_stocks_run.
  cbn [fst snd calls cache]. fold request.
  change (answer_frame yf (List.length (calls st)) request) with answer.
  clearbody answer.
  split; [reflexivity|]. split; [reflexivity|]. split.
  { destruct answer as [data|e]; [|eauto].
    destruct (split_by_ticker (List.length tickers) data tickers []); eauto. }
  split. { intros e ->. reflexivity. }
  split. { intros data t -> ->. reflexivity. }
  split.
  { intros data t e -> Hn Hin Hget.
    destruct (split_by_ticker_fails _ data tickers [] t e Hn Hin Hget) as [e' ->].
    reflexivity. }
  intros data -> Hn Hall.
  destruct (split_by_ticker_splits _ data tickers [] Hn Hall)
    as (results & -> & Hnd & Hkeys & Hin & _); [constructor|].
  exists results. split; [reflexivity|]. split; [exact Hnd|]. split; [|exact Hin].
  intros t. rewrite Hkeys. cbn. tauto.
Qed.

Lemma batch_fetch_contract_witness :
  (1 < List.length ["AAPL"; "MSFT"])%nat
  /\ (forall t, In t ["AAPL"; "MSFT"] ->
               exists part, df_getitem sample_by_ticker t = Ok part)
  /\ exists results,
       fst (get_multiple_stocks steady ["AAPL"; "MSFT"] "1d" "1h" no_state)
       = Ok (Some results)
       /\ NoDup (dict_keys results)
       /\ (forall t, In t (dict_keys results) <-> In t ["AAPL"; "MSFT"])
       /\ (forall t part, In t ["AAPL"; "MSFT"] ->
                          df_getitem sample_by_ticker t = Ok part ->
                          dict_find results t = Some part).
Proof.
  assert (Hn : (1 < List.length ["AAPL"; "MSFT"])%nat) by (cbn; lia).
  assert (Hall : forall t, In t ["AAPL"; "MSFT"] ->
                           exists part, df_getitem sample_by_ticker t = Ok part).
  { intros t [<-|[<-|[]]]; cbn; eauto. }
  split; [exact Hn|]. split; [exact Hall|].
  exact (proj2 (proj2 (proj2 (proj2 (proj2 (proj2
    (batch_fetch_contract steady ["AAPL"; "MSFT"] "1d" "1h" no_state))))))
    sample_by_ticker eq_refl Hn Hall).
Defined.

(* ------------------------------------------------------------------ *)
(** ** The instrument-series handlers *)

Lemma wrap500 {A : Type} (body : M A) (st : State) :
  try_except body (fun e => raise (HTTPException 500 (exc_str e))) st
  = (match fst (body st) with
     | Ok v => Ok v
     | Raise e => Raise (HTTPException 500 (exc_str e))
     end, snd (body st)).
Proof. unfold try_except, raise. destruct (body st) as [[v|e] st']; reflexivity. Qed.

Lemma bind_lift {A B : Type} (r : PyResult A) (a : A) (k : A -> M B) (st : State) :
  r = Ok a -> bind (lift r) k st = k a st.
Proof. intros ->. reflexivity. Qed.

Lemma fetch_step {A : Type} (yf : Provider) (symbol p i : string)
  (start : option datetime) (end_ : datetime) (k : DataFrame -> M A) (st : State) :
  bind (get_stock_data yf symbol p i)
       (fun data =>
          bind (match data with
                | None => history_range yf symbol start end_ i
                | Some d => ret d
                end) k) st
  = let fetched := get_stock_data yf symbol p i st in
    let request := CallHistoryRange symbol start end_ i in
    match fst fetched with
    | Ok (Some d) => k d (snd fetched)
    | Ok None =>
        match answer_frame yf (List.length (calls (snd fetched))) request with
        | Ok d => k d (log_call request (snd fetched))
        | Raise e => (Raise e, log_call request (snd fetched))
        end
    | Raise e => (Raise e, snd fetched)
    end.
Proof.
  unfold bind. destruct (get_stock_data yf symbol p i st) as [[[d|]|e] st1]; cbn;
    reflexivity.
Qed.


(** What comes after the series is in hand logs the metadata request at
    most: here for a continuation that leaves the state alone. *)
Lemma info_then_pure {A : Type} (yf : Provider) (symbol : string)
  (k : dict value -> M A) (st : State) :
  (forall info st', snd (k info st') = st') ->
  snd (bind (ticker_info yf symbol) k st) = log_call (CallInfo symbol) st.
Proof.
  intros Hk. unfold bind, ticker_info.
  destruct (answer_info yf (List.length (calls st)) symbol); [apply Hk | reflexivity].
Qed.

Lemma apply_exchange_total (symbol : string) (exchange : option string) :
  exists resolved, apply_exchange symbol exchange = Ok resolved.
Proof.
  unfold apply_exchange. destruct exchange as [ex|]; [|eauto].
  destruct (PyStr.truthy ex && dict_mem EXCHANGE_MAPPING (PyStr.lower ex)) eqn:Hc;
    [|eauto].
  apply andb_true_iff in Hc. destruct Hc as [_ Hm].
  unfold dict_mem, dict_index in *.
  destruct (dict_find EXCHANGE_MAPPING (PyStr.lower ex)); [|discriminate].
  destruct (negb (PyStr.endswith symbol s)); eauto.
Qed.

Lemma apply_exchange_nse (symbol : string) :
  apply_exchange symbol (Some "nse")
  = Ok (if PyStr.endswith symbol ".NS" then symbol else symbol ++ ".NS").
Proof.
  unfold apply_exchange. change (PyStr.lower "nse") with "nse". cbn.
  destruct (PyStr.endswith symbol ".NS"); reflexivity.
Qed.

Lemma clock_ok_range (now : datetime) (p : string) :
  clock_ok now -> exists start, get_date_range now p = Ok (start, now).
Proof.
  intros Hc.
  destruct (dict_find TIME_PERIODS p) as [[d|]|] eqn:Hf.
  - exists (Some (now - timedelta d)).
    apply get_date_range_listed; [exact Hc | | exact Hf].
    cbn in Hf.
    repeat match type of Hf with
           | context [String.eqb p ?k] => destruct (String.eqb p k)
           end; inversion Hf; lia.
  - exists None. unfold get_date_range, dict_get. now rewrite Hf.
  - exists (Some (now - timedelta 90)). now apply get_date_range_unlisted.
Qed.

(** The memoized fetch never issues a ranged request, and what it logs is
    about its ticker. *)
Lemma get_stock_data_log (yf : Provider) (t p i : string) (st : State) :
  calls (snd (get_stock_data yf t p i st)) = calls st
  \/ calls (snd (get_stock_data yf t p i st)) = CallHistory t p i :: calls st.
Proof.
  rewrite get_stock_data_run. destruct (lru_find (t, p, i) (cache st)); cbn; auto.
Qed.

(** The log of the stock handler, once symbol and dates are resolved:
    the memoized fetch, the ranged request exactly if the fetch handed back
    the sentinel, and the metadata request unless the ranged request
    raised. *)
Lemma stock_endpoint_log (yf : Provider) (now : datetime)
  (symbol p i : string) (exchange : option string) (st : State)
  (resolved : string) (start : option datetime) :
  apply_exchange symbol exchange = Ok resolved ->
  get_date_range now p = Ok (start, now) ->
  let fetched := get_stock_data yf resolved p i st in
  let run := get_stock_data_endpoint yf now symbol p i exchange st in
  exists after,
    calls (snd run)
    = (after
         ++ (if sentinel (fst fetched)
             then [CallHistoryRange resolved start now i] else [])
         ++ calls (snd fetched))%list
    /\ (after = [] \/ after = [CallInfo resolved])
    /\ (sentinel (fst fetched) = false -> after = [CallInfo resolved]).
Proof.
  intros Hres Hrange fetched run. subst run.
  unfold get_stock_data_endpoint. rewrite wrap500. cbn [snd].
  rewrite (bind_lift _ _ _ _ Hres), (bind_lift _ _ _ _ Hrange).
  rewrite fetch_step. cbn zeta. fold fetched.
  destruct (get_stock_data_returns yf resolved p i st) as (v & st1 & Hrun).
  unfold fetched. rewrite Hrun. cbn [fst snd sentinel].
  destruct v as [d|].
  - rewrite info_then_pure by (intros; destruct (df_empty d); reflexivity).
    exists [CallInfo resolved]. cbn. auto.
  - destruct (answer_frame yf (List.length (calls st1))
                (CallHistoryRange resolved start now i)) as [d|e].
    + rewrite info_then_pure by (intros; destruct (df_empty d); reflexivity).
      exists [CallInfo resolved]. cbn. split; [reflexivity | split; [auto | discriminate]].
    + exists []. cbn. split; [reflexivity | split; [auto | discriminate]].
Qed.

(** C7. With [exchange=nse] the stock handler resolves the path symbol to
    itself if it already ends in ".NS" and to the symbol followed by ".NS"
    otherwise, so RELIANCE becomes RELIANCE.NS; the handler issues at least
    one upstream request, and every request it issues is for the resolved
    symbol. *)
Theorem nse_suffix_is_queried (yf : Provider) (now : datetime)
  (symbol p i : string) (st : State) :
  clock_ok now ->
  let resolved := if PyStr.endswith symbol ".NS" then symbol else symbol ++ ".NS" in
  let run := get_stock_data_endpoint yf now symbol p i (Some "nse") st in
  apply_exchange symbol (Some "nse") = Ok resolved
  /\ (symbol = "RELIANCE" -> resolved = "RELIANCE.NS")
  /\ (PyStr.endswith symbol ".NS" = true -> resolved = symbol)
  /\ (PyStr.endswith symbol ".NS" = false -> resolved = symbol ++ ".NS")
  /\ exists issued,
       calls (snd run) = (issued ++ calls st)%list
       /\ issued <> []
       /\ Forall (fun c => call_ticker c = Some resolved) issued.
Proof.
  intros Hc resolved run.
  split; [apply apply_exchange_nse|].
  split; [intros ->; reflexivity|].
  split; [subst resolved; intros ->; reflexivity|].
  split; [subst resolved; intros ->; reflexivity|].
  destruct (clock_ok_range now p Hc) as [start Hrange].
  destruct (stock_endpoint_log yf now symbol p i (Some "nse") st resolved start
              (apply_exchange_nse symbol) Hrange) as (after & Hlog & Hafter & Hdata).
  fold run in Hlog. rewrite Hlog.
  destruct (sentinel (fst (get_stock_data yf resolved p i st))) eqn:Hs.
  - destruct (get_stock_data_log yf resolved p i st) as [-> | ->].
    + exists (after ++ [CallHistoryRange resolved start now i])%list.
      rewrite <- app_assoc. split; [reflexivity|]. split.
      * destruct after; discriminate.
      * apply Forall_app. split; [|repeat constructor].
        destruct Hafter as [-> | ->]; repeat constructor.
    + exists (after ++ [CallHistoryRange resolved start now i; CallHistory resolved p i])%list.
      rewrite <- app_assoc. split; [reflexivity|]. split.
      * destruct after; discriminate.
      * apply Forall_app. split; [|repeat constructor].
        destruct Hafter as [-> | ->]; repeat constructor.
  - rewrite (Hdata eq_refl).
    destruct (get_stock_data_log yf resolved p i st) as [-> | ->].
    + exists [CallInfo resolved]. split; [reflexivity|]. split; [discriminate|].
      repeat constructor.
    + exists [CallInfo resolved; CallHistory resolved p i].
      split; [reflexivity|]. split; [discriminate|]. repeat constructor.
Qed.

Lemma nse_suffix_is_queried_witness :
  clock_ok new_year_2026
  /\ exists issued,
       calls (snd (get_stock_data_endpoint steady new_year_2026
                     "RELIANCE" "90d" "1d" (Some "nse") no_state))
       = (issued ++ calls no_state)%list
       /\ issued <> []
       /\ Forall (fun c => call_ticker c = Some "RELIANCE.NS") issued.
Proof.
  split; [exact clock_ok_2026|].
  exact (proj2 (proj2 (proj2 (proj2
    (nse_suffix_is_queried steady new_year_2026 "RELIANCE" "90d" "1d" no_state
       clock_ok_2026))))).
Defined.

Example reliance_nse_log :
  calls (snd (get_stock_data_endpoint steady new_year_2026
                "RELIANCE" "90d" "1d" (Some "nse") no_state))
  = [CallInfo "RELIANCE.NS"; CallHistory "RELIANCE.NS" "90d" "1d"].
Proof. reflexivity. Qed.

Lemma bind_info {A : Type} (yf : Provider) (symbol : string) (info : dict value)
  (k : dict value -> M A) (st : State) :
  answer_info yf (List.length (calls st)) symbol = Ok info ->
  bind (ticker_info yf symbol) k st = k info (after_info symbol st).
Proof. intros H. unfold bind, ticker_info. rewrite H. reflexivity. Qed.

(** The log of a handler that reads the metadata first, from the memoized
    fetch on: the ranged request exactly if the fetch handed back the
    sentinel, and nothing after it. *)
Lemma fetch_tail_log {A : Type} (yf : Provider) (symbol p i : string)
  (start : option datetime) (end_ : datetime) (k : DataFrame -> M A) (st : State) :
  (forall d st', snd (k d st') = st') ->
  let fetched := get_stock_data yf symbol p i st in
  calls (snd (bind (get_stock_data yf symbol p i)
                (fun data =>
                   bind (match data with
                         | None => history_range yf symbol start end_ i
                         | Some d => ret d
                         end) k) st))
  = ((if sentinel (fst fetched)
      then [CallHistoryRange symbol start end_ i] else [])
       ++ calls (snd fetched))%list.
Proof.
  intros Hk fetched. rewrite fetch_step. cbn zeta. fold fetched.
  destruct (get_stock_data_returns yf symbol p i st) as (v & st1 & Hrun).
  unfold fetched. rewrite Hrun. cbn [fst snd sentinel].
  destruct v as [d|]; [now rewrite Hk|].
  destruct (answer_frame yf (List.length (calls st1))
              (CallHistoryRange symbol start end_ i)); [now rewrite Hk | reflexivity].
Qed.

Lemma forex_log (yf : Provider) (now : datetime) (pair p i : string) (st : State)
  (info : dict value) (start : option datetime) :
  answer_info yf (List.length (calls st)) (forex_symbol pair) = Ok info ->
  get_date_range now p = Ok (start, now) ->
  let symbol := forex_symbol pair in
  let fetched := get_stock_data yf symbol p i (after_info symbol st) in
  calls (snd (get_forex_data yf now pair p i st))
  = ((if sentinel (fst fetched)
      then [CallHistoryRange symbol start now i] else [])
       ++ calls (snd fetched))%list.
Proof.
  intros Hinfo Hrange symbol fetched.
  unfold get_forex_data. rewrite wrap500. cbn [snd]. cbn zeta.
  fold (forex_symbol pair). fold symbol.
  rewrite (bind_info _ _ _ _ _ Hinfo), (bind_lift _ _ _ _ Hrange).
  apply fetch_tail_log. intros d st'. destruct (df_empty d); reflexivity.
Qed.

Lemma index_log (yf : Provider) (now : datetime) (name p i : string) (st : State)
  (info : dict value) (start : option datetime) :
  answer_info yf (List.length (calls st)) (index_symbol name) = Ok info ->
  get_date_range now p = Ok (start, now) ->
  let symbol := index_symbol name in
  let fetched := get_stock_data yf symbol p i (after_info symbol st) in
  calls (snd (get_index_data yf now name p i st))
  = ((if sentinel (fst fetched)
      then [CallHistoryRange symbol start now i] else [])
       ++ calls (snd fetched))%list.
Proof.
  intros Hinfo Hrange symbol fetched.
  unfold get_index_data. cbn zeta. rewrite wrap500. cbn [snd].
  fold (index_symbol name). fold symbol.
  rewrite (bind_info _ _ _ _ _ Hinfo), (bind_lift _ _ _ _ Hrange).
  apply fetch_tail_log. intros d st'. destruct (df_empty d); reflexivity.
Qed.

Lemma mutual_fund_log (yf : Provider) (now : datetime) (symbol p i : string)
  (st : State) (info : dict value) (start : option datetime) :
  answer_info yf (List.length (calls st)) symbol = Ok info ->
  get_date_range now p = Ok (start, now) ->
  let fetched := get_stock_data yf symbol p i (after_info symbol st) in
  calls (snd (get_mutual_fund_data yf now symbol p i st))
  = ((if sentinel (fst fetched)
      then [CallHistoryRange symbol start now i] else [])
       ++ calls (snd fetched))%list.
Proof.
  intros Hinfo Hrange fetched.
  unfold get_mutual_fund_data. rewrite wrap500. cbn [snd].
  rewrite (bind_info _ _ _ _ _ Hinfo), (bind_lift _ _ _ _ Hrange).
  apply fetch_tail_log. intros d st'. destruct (df_empty d); reflexivity.
Qed.

(** C3, as the code has it. Whenever a series handler reaches the memoized
    fetch, it issues the direct ranged request, with the resolved start and
    end dates, exactly if the fetch handed back the failure sentinel, and
    issues none if the fetch handed back a series.  The sentinel comes from
    a cache hit on a stored failure as well as from a miss whose upstream
    request failed; a miss whose request succeeded gives a series. *)
Theorem fallback_exactly_on_sentinel (yf : Provider) (now : datetime)
  (p i : string) (st : State) :
  clock_ok now ->
  exists start,
    get_date_range now p = Ok (start, now)
    /\ (forall symbol exchange,
         exists resolved,
           apply_exchange symbol exchange = Ok resolved
           /\ let fetched := get_stock_data yf resolved p i st in
              exists after,
                calls (snd (get_stock_data_endpoint yf now symbol p i exchange st))
                = (after
                     ++ (if sentinel (fst fetched)
                         then [CallHistoryRange resolved start now i] else [])
                     ++ calls (snd fetched))%list
                /\ count_range after = 0%nat)
    /\ (forall pair info,
         answer_info yf (List.length (calls st)) (forex_symbol pair) = Ok info ->
         let symbol := forex_symbol pair in
         let fetched := get_stock_data yf symbol p i (after_info symbol st) in
         calls (snd (get_forex_data yf now pair p i st))
         = ((if sentinel (fst fetched)
             then [CallHistoryRange symbol start now i] else [])
              ++ calls (snd fetched))%list)
    /\ (forall name info,
         answer_info yf (List.length (calls st)) (index_symbol name) = Ok info ->
         let symbol := index_symbol name in
         let fetched := get_stock_data yf symbol p i (after_info symbol st) in
         calls (snd (get_index_data yf now name p i st))
         = ((if sentinel (fst fetched)
             then [CallHistoryRange symbol start now i] else [])
              ++ calls (snd fetched))%list)
    /\ (forall symbol info,
         answer_info yf (List.length (calls st)) symbol = Ok info ->
         let fetched := get_stock_data yf symbol p i (after_info symbol st) in
         calls (snd (get_mutual_fund_data yf now symbol p i st))
         = ((if sentinel (fst fetched)
             then [CallHistoryRange symbol start now i] else [])
              ++ calls (snd fetched))%list)
    /\ (forall t st',
         count_range (calls (snd (get_stock_data yf t p i st')))
         = count_range (calls st'))
    /\ (forall t st',
         lru_find (t, p, i) (cache st') = Some None ->
         sentinel (fst (get_stock_data yf t p i st')) = true)
    /\ (forall t st' e,
         lru_find (t, p, i) (cache st') = None ->
         answer_frame yf (List.length (calls st')) (CallHistory t p i) = Raise e ->
         sentinel (fst (get_stock_data yf t p i st')) = true)
    /\ (forall t st' d,
         lru_find (t, p, i) (cache st') = None ->
         answer_frame yf (List.length (calls st')) (CallHistory t p i) = Ok d ->
         sentinel (fst (get_stock_data yf t p i st')) = false)
    /\ (forall t st' d,
         lru_find (t, p, i) (cache st') = Some (Some d) ->
         sentinel (fst (get_stock_data yf t p i st')) = false).
Proof.
  intros Hc. destruct (clock_ok_range now p Hc) as [start Hrange].
  exists start. split; [exact Hrange|].
  split.
  { intros symbol exchange.
    destruct (apply_exchange_total symbol exchange) as [resolved Hres].
    exists resolved. split; [exact Hres|]. cbn zeta.
    destruct (stock_endpoint_log yf now symbol p i exchange st resolved start
                Hres Hrange) as (after & Hlog & Hafter & _).
    exists after. split; [exact Hlog|]. destruct Hafter as [-> | ->]; reflexivity. }
  split. { intros pair info Hinfo. now apply (forex_log yf now pair p i st info). }
  split. { intros name info Hinfo. now apply (index_log yf now name p i st info). }
  split. { intros symbol info Hinfo. now apply (mutual_fund_log yf now symbol p i st info). }
  split.
  { intros t st'. destruct (get_stock_data_log yf t p i st') as [-> | ->]; reflexivity. }
  split. { intros t st' Hf. rewrite get_stock_data_run, Hf. reflexivity. }
  split. { intros t st' e Hf Ha. rewrite get_stock_data_run, Hf, Ha. reflexivity. }
  split. { intros t st' d Hf Ha. rewrite get_stock_data_run, Hf, Ha. reflexivity. }
  intros t st' d Hf. rewrite get_stock_data_run, Hf. reflexivity.
Qed.

Lemma fallback_exactly_on_sentinel_witness :
  clock_ok new_year_2026
  /\ exists start,
       get_date_range new_year_2026 "90d" = Ok (start, new_year_2026)
       /\ sentinel (fst (get_stock_data steady "AAPL" "90d" "1d" poisoned)) = true.
Proof.
  split; [exact clock_ok_2026|].
  destruct (fallback_exactly_on_sentinel steady new_year_2026 "90d" "1d" poisoned
              clock_ok_2026) as (start & Hrange & _ & _ & _ & _ & _ & Hhit & _).
  exists start. split; [exact Hrange|]. apply Hhit. reflexivity.
Defined.

(** C3, as worded, fails on a cache that holds a stored failure: the fetch
    is a hit, it hands back the sentinel without any upstream request, and
    the handler goes on to issue the ranged request. *)
Lemma fallback_made_on_cached_failure :
  lru_find ("AAPL", "90d", "1d") (cache poisoned) = Some None
  /\ get_stock_data steady "AAPL" "90d" "1d" poisoned = (Ok None, poisoned)
  /\ calls (snd (get_stock_data_endpoint steady new_year_2026
                   "AAPL" "90d" "1d" None poisoned))
     = [CallInfo "AAPL";
        CallHistoryRange "AAPL" (Some (new_year_2026 - timedelta 90))
                         new_year_2026 "1d"]
  /\ ~ fallback_on_miss_only.
Proof.
  split; [reflexivity|]. split; [reflexivity|]. split; [reflexivity|].
  intros H.
  destruct (H steady new_year_2026 "AAPL" "90d" "1d" poisoned) as [Hmiss _].
  assert (Hlt : (count_range (calls poisoned)
                 < count_range (calls (snd (get_stock_data_endpoint steady
                      new_year_2026 "AAPL" "90d" "1d" None poisoned))))%nat).
  { vm_compute. lia. }
  specialize (Hmiss Hlt). discriminate Hmiss.
Qed.

(* ------------------------------------------------------------------ *)
(** ** Status codes of the series handlers *)

Lemma wrap500_status (body : M value) (st : State) :
  let s := status (respond (fst (try_except body
                  (fun e => raise (HTTPException 500 (exc_str e))) st))) in
  s = 200 \/ s = 500.
Proof.
  rewrite wrap500. cbn. destruct (fst (body st)); cbn; auto.
Qed.

(** C1, as the code has it. Every series handler answers 200 or 500 and
    nothing else: the 404 raised for an empty series is caught by the
    handler's own [except Exception] and sent as a 500 whose detail is the
    text of the 404.  Shown on a provider that knows no instrument, for
    each of the four handlers.  Any other exception is sent as a 500 with
    its text as detail, shown on an unreachable provider. *)
Theorem empty_series_answers_500 :
  (forall yf now symbol p i exchange st,
      let s := status (respond (fst (get_stock_data_endpoint
                                        yf now symbol p i exchange st))) in
      s = 200 \/ s = 500)
  /\ (forall yf now pair p i st,
         let s := status (respond (fst (get_forex_data yf now pair p i st))) in
         s = 200 \/ s = 500)
  /\ (forall yf now symbol p i st,
         let s := status (respond (fst (get_index_data yf now symbol p i st))) in
         s = 200 \/ s = 500)
  /\ (forall yf now symbol p i st,
         let s := status (respond (fst (get_mutual_fund_data yf now symbol p i st))) in
         s = 200 \/ s = 500)
  /\ respond (fst (get_stock_data_endpoint unknown_everywhere new_year_2026
                     "AAPL" "30d" "1d" None no_state))
     = {| status := 500;
          body := obj [("detail", VStr "404: No data found for AAPL.")] |}
  /\ respond (fst (get_forex_data unknown_everywhere new_year_2026
                     "usd_inr" "30d" "1d" no_state))
     = {| status := 500;
          body := obj [("detail", VStr "404: No data found for forex pair usd_inr.")] |}
  /\ respond (fst (get_index_data unknown_everywhere new_year_2026
                     "nifty50" "30d" "1d" no_state))
     = {| status := 500;
          body := obj [("detail", VStr "404: No data found for index nifty50.")] |}
  /\ respond (fst (get_mutual_fund_data unknown_everywhere new_year_2026
                     "0P0000XVOI.BO" "30d" "1d" no_state))
     = {| status := 500;
          body := obj [("detail",
                        VStr "404: No data found for mutual fund 0P0000XVOI.BO.")] |}
  /\ respond (fst (get_stock_data_endpoint down new_year_2026
                     "AAPL" "30d" "1d" None no_state))
     = {| status := 500; body := obj [("detail", VStr "upstream unreachable")] |}.
Proof.
  split; [intros; apply wrap500_status|].
  split; [intros; apply wrap500_status|].
  split; [intros; apply wrap500_status|].
  split; [intros; apply wrap500_status|].
  repeat split; vm_compute; reflexivity.
Qed.

(* ------------------------------------------------------------------ *)
(** ** The comparison handler *)

Lemma df_records_timestamped (df : DataFrame) : Forall timestamped (df_records df).
Proof.
  destruct df as [name columns rows | name groups rows]; cbn;
    apply Forall_forall; intros r Hin; apply in_map_iff in Hin;
    destruct Hin as [row [<- _]]; exact I.
Qed.

Lemma index_of_in (k : string) (l : list string) :
  In k l -> exists n, index_of k l = Some n.
Proof.
  induction l as [|k' l IH]; cbn; [tauto|].
  destruct (String.eqb_spec k k') as [->|Hne]; [eauto|].
  intros [E|Hin]; [congruence|]. destruct (IH Hin) as [n ->]. eauto.
Qed.

Lemma existsb_eqb_in (k : string) (l : list string) :
  existsb (String.eqb k) l = true <-> In k l.
Proof.
  rewrite existsb_exists. split.
  - intros [x [Hin Hx]]. apply String.eqb_eq in Hx. now subst.
  - intros Hin. exists k. split; [exact Hin | apply String.eqb_refl].
Qed.

(** A frame with levels has a group for each of them. *)
Lemma df_getitem_level (raw : DataFrame) (levels : list string) (f : string) :
  df_levels0 raw = Ok levels -> In f levels ->
  exists part, df_getitem raw f = Ok part.
Proof.
  destruct raw as [name columns rows | name groups rows]; cbn; [discriminate|].
  intros [= <-] Hin. destruct (index_of_in f _ Hin) as [n ->]. eauto.
Qed.

(** The field loop on a frame with levels: it keeps the fields that are
    levels, each with the records of its group. *)
Lemma reshape_by_field_spec (raw : DataFrame) (levels fields : list string)
  (acc : dict value) :
  df_levels0 raw = Ok levels ->
  exists result,
    reshape_by_field raw fields acc = Ok result
    /\ (forall f, In f (dict_keys result)
                  <-> (In f fields /\ In f levels) \/ In f (dict_keys acc))
    /\ (forall f, In f fields -> In f levels ->
                  exists part, df_getitem raw f = Ok part
                               /\ dict_find result f = Some (VList (df_records part)))
    /\ (forall f, ~ (In f fields /\ In f levels) ->
                  dict_find result f = dict_find acc f).
Proof.
  intros Hlv. revert acc. induction fields as [|f0 fs IH]; intros acc.
  - exists acc. cbn. repeat split; intros; tauto.
  - cbn [reshape_by_field]. rewrite Hlv.
    destruct (existsb (String.eqb f0) levels) eqn:Hex.
    + assert (Hin0 : In f0 levels) by (now apply existsb_eqb_in).
      destruct (df_getitem_level raw levels f0 Hlv Hin0) as [part0 Hp0]. rewrite Hp0.
      destruct (IH (dict_set acc f0 (VList (df_records part0))))
        as (result & Hrun & Hkeys & Hin & Hout).
      exists result. split; [exact Hrun|]. repeat split.
      * intros Hf. apply Hkeys in Hf. rewrite dict_keys_set in Hf. cbn.
        destruct Hf as [[? ?]|[->|?]]; auto.
      * intros Hf. apply Hkeys. rewrite dict_keys_set. cbn in Hf.
        destruct Hf as [[[->|?] ?]|?]; auto.
      * intros f [->|Hf] Hlev.
        -- destruct (in_dec string_dec f fs) as [Hfs|Hfs]; [now apply Hin|].
           exists part0. split; [exact Hp0|].
           rewrite Hout by tauto. now rewrite dict_find_set, String.eqb_refl.
        -- now apply Hin.
      * intros f Hf. cbn in Hf. rewrite Hout by tauto. rewrite dict_find_set.
        destruct (String.eqb_spec f f0); [subst; tauto | reflexivity].
    + assert (Hnot : ~ In f0 levels).
      { intros H. apply existsb_eqb_in in H. congruence. }
      destruct (IH acc) as (result & Hrun & Hkeys & Hin & Hout).
      exists result. split; [exact Hrun|]. repeat split.
      * intros Hf. apply Hkeys in Hf. cbn. tauto.
      * intros Hf. apply Hkeys. cbn in Hf.
        destruct Hf as [[[->|?] ?]|?]; tauto.
      * intros f [->|Hf] Hlev; [tauto | now apply Hin].
      * intros f Hf. apply Hout. cbn in Hf. tauto.
Qed.

(** With distinct keys the formatting loop is a map. *)
Lemma format_result_map (result : dict DataFrame) :
  NoDup (dict_keys result) ->
  format_result result
  = map (fun kv => (fst kv, VList (df_records (snd kv)))) result.
Proof.
  unfold format_result.
  set (g := fun kv : string * DataFrame => (fst kv, VList (df_records (snd kv)))).
  assert (Hgen : forall rest done,
             NoDup (dict_keys (done ++ rest)%list) ->
             fold_left (fun formatted kv =>
                          dict_set formatted (fst kv) (VList (df_records (snd kv))))
                       rest (map g done)
             = map g (done ++ rest)%list).
  { induction rest as [|[k v] rest IH]; intros done Hnd.
    - cbn. now rewrite app_nil_r.
    - cbn [fold_left fst snd].
      assert (Hset : dict_set (map g done) k (VList (df_records v))
                     = map g (done ++ [(k, v)])%list).
      { assert (Hk : ~ In k (dict_keys done)).
        { unfold dict_keys in *. rewrite map_app in Hnd. cbn in Hnd.
          apply NoDup_remove_2 in Hnd. intros H. apply Hnd. apply in_or_app. auto. }
        clear IH Hnd. induction done as [|[k' v'] done IHd]; cbn; [reflexivity|].
        cbn in Hk. destruct (String.eqb_spec k k'); [exfalso; auto|].
        rewrite IHd by (unfold dict_keys; tauto). reflexivity. }
      rewrite Hset, IH.
      + now rewrite <- app_assoc.
      + now rewrite <- app_assoc. }
  intros Hnd. exact (Hgen result [] Hnd).
Qed.

Lemma split_by_ticker_all (n : nat) (data : DataFrame) (tickers : list string)
  (acc results : dict DataFrame) :
  (1 < n)%nat -> split_by_ticker n data tickers acc = Ok results ->
  forall t, In t tickers -> exists part, df_getitem data t = Ok part.
Proof.
  intros Hn Hrun t Hin. destruct (df_getitem data t) as [part|e] eqn:Hget; [eauto|].
  destruct (split_by_ticker_fails n data tickers acc t e Hn Hin Hget) as [e' He'].
  congruence.
Qed.

(** The handler on more than one symbol, unfolded: the batch fetch first;
    its result is formatted if there is one; otherwise one ranged download
    of the whole list is reshaped field by field. *)
Lemma compare_many_run (yf : Provider) (now : datetime) (symbols p i : string)
  (st : State) (start : option datetime) :
  get_date_range now p = Ok (start, now) ->
  let symbol_list := map PyStr.strip (PyStr.split "," symbols) in
  (1 < List.length symbol_list)%nat ->
  let batch := get_multiple_stocks yf symbol_list p i st in
  let request := CallDownloadRange symbol_list start now i in
  let reply (data : value) :=
    obj [("symbols", VList (map VStr symbol_list));
         ("period", VStr p); ("interval", VStr i); ("data", data)] in
  compare_instruments yf now symbols p i st
  = match fst batch with
    | Ok result =>
        if falsy_result result then
          (match answer_frame yf (List.length (calls (snd batch))) request with
           | Ok raw =>
               if df_empty raw then
                 Raise (HTTPException 500
                          (exc_str (HTTPException 404
                                      "No data found for the specified symbols.")))
               else
                 match reshape_by_field raw FIELDS [] with
                 | Ok result => Ok (reply (obj result))
                 | Raise e => Raise (HTTPException 500 (exc_str e))
                 end
           | Raise e => Raise (HTTPException 500 (exc_str e))
           end, log_call request (snd batch))
        else
          (Ok (reply (obj (format_result
                             (match result with Some d => d | None => [] end)))),
           snd batch)
    | Raise e => (Raise (HTTPException 500 (exc_str e)), snd batch)
    end.
Proof.
  intros Hrange symbol_list Hmany batch request reply.
  unfold compare_instruments, try_except. fold symbol_list.
  rewrite (bind_lift _ _ _ _ Hrange).
  apply Nat.ltb_lt in Hmany. rewrite Hmany.
  unfold bind, lift, upstream_frame, raise, ret. fold request.
  subst batch.
  destruct (get_multiple_stocks yf symbol_list p i st) as [[result|e] st1];
    cbn [fst snd]; [|reflexivity].
  destruct (falsy_result result); [|reflexivity].
  destruct (answer_frame yf (List.length (calls st1)) request) as [raw|e];
    [|reflexivity].
  destruct (df_empty raw); [reflexivity|].
  destruct (reshape_by_field raw FIELDS []); reflexivity.
Qed.

(** C6. On more than one symbol the handler calls the batch fetch first,
    which issues the one grouped download.  If the batch fetch has a result
    the reply's "data" maps exactly the requested symbols, each to the
    records of its group, and nothing more is requested upstream.  If the
    batch fetch has none, the handler issues one ranged download of the
    whole list and, when that answers a non-empty frame with levels, maps
    each of Open, High, Low, Close, Volume that is a level to the records
    of its group.  For [symbols=AAPL,MSFT] with both symbols in the grouped
    answer, "data" has the two keys AAPL and MSFT, each with a list of
    records that start with their timestamp. *)
Theorem compare_prefers_batch (yf : Provider) (now : datetime)
  (symbols p i : string) (st : State) :
  clock_ok now ->
  let symbol_list := map PyStr.strip (PyStr.split "," symbols) in
  (1 < List.length symbol_list)%nat ->
  let batch := get_multiple_stocks yf symbol_list p i st in
  let run := compare_instruments yf now symbols p i st in
  let reply (data : value) :=
    obj [("symbols", VList (map VStr symbol_list));
         ("period", VStr p); ("interval", VStr i); ("data", data)] in
  exists start,
    get_date_range now p = Ok (start, now)
    /\ calls (snd batch)
       = CallDownload (PyStr.join " " symbol_list) p i :: calls st
    /\ (forall results,
         fst batch = Ok (Some results) ->
         calls (snd run) = calls (snd batch)
         /\ fst run
            = Ok (reply (obj (map (fun kv => (fst kv, VList (df_records (snd kv))))
                                  results)))
         /\ NoDup (dict_keys results)
         /\ (forall t, In t (dict_keys results) <-> In t symbol_list)
         /\ Forall (fun kv => Forall timestamped (df_records (snd kv))) results)
    /\ (fst batch = Ok None ->
        let request := CallDownloadRange symbol_list start now i in
        calls (snd run) = request :: calls (snd batch)
        /\ forall raw levels,
            answer_frame yf (List.length (calls (snd batch))) request = Ok raw ->
            df_empty raw = false ->
            df_levels0 raw = Ok levels ->
            exists result,
              fst run = Ok (reply (obj result))
              /\ (forall f, In f (dict_keys result) <-> In f FIELDS /\ In f levels)
              /\ (forall f, In f FIELDS -> In f levels ->
                            exists part,
                              df_getitem raw f = Ok part
                              /\ dict_find result f = Some (VList (df_records part))))
    /\ (symbols = "AAPL,MSFT" ->
        forall data aapl msft,
          answer_frame yf (List.length (calls st))
                       (CallDownload "AAPL MSFT" p i) = Ok data ->
          df_getitem data "AAPL" = Ok aapl ->
          df_getitem data "MSFT" = Ok msft ->
          fst run
          = Ok (obj [("symbols", VList [VStr "AAPL"; VStr "MSFT"]);
                     ("period", VStr p); ("interval", VStr i);
                     ("data", obj [("AAPL", VList (df_records aapl));
                                   ("MSFT", VList (df_records msft))])])
          /\ Forall timestamped (df_records aapl)
          /\ Forall timestamped (df_records msft)).
Proof.
  intros Hc symbol_list Hmany batch run reply.
  destruct (clock_ok_range now p Hc) as [start Hrange].
  exists start. split; [exact Hrange|].
  pose proof (compare_many_run yf now symbols p i st start Hrange Hmany) as Hrun.
  cbn zeta in Hrun. fold symbol_list in Hrun. fold batch in Hrun. fold run in Hrun.
  assert (Hbatch : batch = get_multiple_stocks yf symbol_list p i st) by reflexivity.
  rewrite get_multiple_stocks_run in Hbatch. cbn zeta in Hbatch.
  (* the batch result, when there is one *)
  assert (Hsome : forall results,
             fst batch = Ok (Some results) ->
             NoDup (dict_keys results)
             /\ (forall t, In t (dict_keys results) <-> In t symbol_list)).
  { intros results Hres. rewrite Hbatch in Hres. cbn [fst] in Hres.
    destruct (answer_frame yf (List.length (calls st))
                (CallDownload (PyStr.join " " symbol_list) p i)) as [data|e];
      [|discriminate].
    destruct (split_by_ticker (List.length symbol_list) data symbol_list [])
      as [results'|e] eqn:Hsplit; [|discriminate].
    injection Hres as ->.
    pose proof (split_by_ticker_all _ data symbol_list [] results Hmany Hsplit) as Hall.
    destruct (split_by_ticker_splits _ data symbol_list [] Hmany Hall)
      as (results'' & Hrun'' & Hnd & Hkeys & _); [constructor|].
    assert (results'' = results) by congruence. subst results''.
    split; [exact Hnd|]. intros t. rewrite Hkeys. cbn. tauto. }
  split; [rewrite Hbatch; reflexivity|].
  split.
  { intros results Hres. destruct (Hsome results Hres) as [Hnd Hkeys].
    assert (Hne : falsy_result (Some results) = false).
    { destruct results as [|kv results]; [|reflexivity].
      destruct symbol_list as [|t ts]; [cbn in Hmany; lia|].
      exfalso. apply (proj2 (Hkeys t)). now left. }
    rewrite Hrun, Hres, Hne. cbn [fst snd].
    rewrite format_result_map by exact Hnd.
    repeat split; auto.
    - apply Hkeys.
    - apply Hkeys.
    - apply Forall_forall. intros kv _. apply df_records_timestamped. }
  split.
  { intros Hnone. cbn zeta. rewrite Hrun, Hnone. cbn [falsy_result fst snd].
    split; [reflexivity|].
    intros raw levels -> -> Hlv.
    destruct (reshape_by_field_spec raw levels FIELDS [] Hlv)
      as (result & -> & Hkeys & Hin & _).
    exists result. split; [reflexivity|]. split; [|exact Hin].
    intros f. rewrite Hkeys. cbn. tauto. }
  intros Hsym data aapl msft Hdata Ha Hm.
  assert (Hlist : symbol_list = ["AAPL"; "MSFT"]) by (subst symbol_list symbols; reflexivity).
  assert (Hres : fst batch = Ok (Some [("AAPL", aapl); ("MSFT", msft)])).
  { rewrite Hbatch, Hlist. cbn [fst]. change (PyStr.join " " ["AAPL"; "MSFT"]) with "AAPL MSFT".
    rewrite Hdata. cbn. rewrite Ha, Hm. reflexivity. }
  rewrite Hrun, Hres. cbn [falsy_result is_nil fst snd].
  subst reply. cbn beta. rewrite Hlist.
  split; [reflexivity|]. split; apply df_records_timestamped.
Qed.

Lemma compare_prefers_batch_witness :
  clock_ok new_year_2026
  /\ (1 < List.length (map PyStr.strip (PyStr.split "," "AAPL,MSFT")))%nat
  /\ fst (compare_instruments steady new_year_2026 "AAPL,MSFT" "90d" "1d" no_state)
     = Ok (obj [("symbols", VList [VStr "AAPL"; VStr "MSFT"]);
                ("period", VStr "90d"); ("interval", VStr "1d");
                ("data",
                 obj [("AAPL",
                       VList (df_records
                                (Flat "Date" ["Open"; "Close"]
                                   [(day 739614, [VNum 101; VNum 104]);
                                    (day 739615, [VNum 104; VNum 105])])));
                      ("MSFT",
                       VList (df_records
                                (Flat "Date" ["Open"; "Close"]
                                   [(day 739614, [VNum 301; VNum 303]);
                                    (day 739615, [VNum 303; VNum 299])])))])]).
Proof.
  assert (Hmany : (1 < List.length (map PyStr.strip (PyStr.split "," "AAPL,MSFT")))%nat)
    by (cbn; lia).
  split; [exact clock_ok_2026|]. split; [exact Hmany|].
  destruct (compare_prefers_batch steady new_year_2026 "AAPL,MSFT" "90d" "1d"
              no_state clock_ok_2026 Hmany) as (start & _ & _ & _ & _ & Htwo).
  exact (proj1 (Htwo eq_refl sample_by_ticker _ _ eq_refl eq_refl eq_refl)).
Defined.

(** The fall-back at work: the grouped download fails, the ranged one is
    reshaped into the fields it has, in the order of the field list. *)
Example compare_falls_back :
  let run := compare_instruments flaky new_year_2026 "AAPL, MSFT" "30d" "1d" no_state in
  calls (snd run)
  = [CallDownloadRange ["AAPL"; "MSFT"] (Some (new_year_2026 - timedelta 30))
                       new_year_2026 "1d";
     CallDownload "AAPL MSFT" "30d" "1d"]
  /\ exists opens closes,
       fst run
       = Ok (obj [("symbols", VList [VStr "AAPL"; VStr "MSFT"]);
                  ("period", VStr "30d"); ("interval", VStr "1d");
                  ("data", obj [("Open", VList opens); ("Close", VList closes)])]).
Proof. split; [reflexivity | eexists; eexists; reflexivity]. Qed.

(* ------------------------------------------------------------------ *)
(** ** Capacity-driven eviction, on the stored failure *)

(** A stored failure survives 999 fetches of other keys and is evicted by
    the 1000th: only then is the upstream asked again. *)
Example stored_failure_evicted_at_capacity :
  let first := snd (get_stock_data flaky "AAPL" "1d" "1h" no_state) in
  fst (get_stock_data flaky "AAPL" "1d" "1h"
         (run_fetches flaky (other_keys 999) first)) = Ok None
  /\ lru_find ("AAPL", "1d", "1h")
              (cache (run_fetches flaky (other_keys 1000) first)) = None
  /\ fst (get_stock_data flaky "AAPL" "1d" "1h"
            (run_fetches flaky (other_keys 1000) first)) = Ok (Some sample_bars).
Proof. vm_compute. repeat split. Qed.

(* ================================================================== *)
(** * Further properties of the module *)

(** ** The cache over many calls *)

Lemma held_after_call (yf : Provider) (t p i : string) (st : State) :
  exists v,
    fst (get_stock_data yf t p i st) = Ok v
    /\ held (t, p, i) v 0 (cache (snd (get_stock_data yf t p i st))).
Proof.
  rewrite get_stock_data_run.
  destruct (lru_find (t, p, i) (cache st)) as [v|] eqn:Hf; cbn zeta.
  - exists v. split; [reflexivity|]. cbn. unfold held, lru_touch. cbn.
    rewrite key_eqb_refl. split; [reflexivity | exists O; split; [reflexivity | lia]].
  - eexists. split; [reflexivity|]. cbn. unfold held, lru_store.
    destruct (maxsize <=? List.length (cache st))%nat; cbn;
      rewrite key_eqb_refl; (split; [reflexivity | exists O; split; [reflexivity | lia]]).
Qed.

(** X1. Whatever a call of the memoized fetch returns, series or sentinel,
    hit or miss, a later call on the same key returns the same and issues
    no upstream request, as long as fewer calls than the capacity came in
    between. *)
Theorem fetch_result_is_remembered (yf : Provider) (t p i : string) (st : State)
  (others : list Key) :
  (List.length others < maxsize)%nat ->
  let first := get_stock_data yf t p i st in
  let between := run_fetches yf others (snd first) in
  let second := get_stock_data yf t p i between in
  fst second = fst first /\ calls (snd second) = calls between.
Proof.
  intros Hlen first between second.
  destruct (held_after_call yf t p i st) as (v & Hv & Hheld). fold first in Hv, Hheld.
  assert (Hb : held (t, p, i) v (0 + List.length others) (cache between)).
  { unfold between. apply held_run; [exact Hheld | cbn; lia]. }
  destruct Hb as [Hfind _]. unfold second.
  rewrite get_stock_data_run, Hfind, Hv. split; reflexivity.
Qed.

Lemma fetch_result_is_remembered_witness :
  (List.length [("MSFT", "1d", "1h"); ("GOOG", "1d", "1h")] < maxsize)%nat
  /\ fst (get_stock_data steady "AAPL" "1d" "1h"
            (run_fetches steady [("MSFT", "1d", "1h"); ("GOOG", "1d", "1h")]
               (snd (get_stock_data steady "AAPL" "1d" "1h" no_state))))
     = fst (get_stock_data steady "AAPL" "1d" "1h" no_state).
Proof.
  assert (H : (List.length [("MSFT", "1d", "1h"); ("GOOG", "1d", "1h")] < maxsize)%nat)
    by (unfold maxsize; cbn; lia).
  split; [exact H|].
  exact (proj1 (fetch_result_is_remembered steady "AAPL" "1d" "1h" no_state
                  [("MSFT", "1d", "1h"); ("GOOG", "1d", "1h")] H)).
Defined.

Section QueueKeys.

Context {V : Type}.
Implicit Types (c : list (Key * V)) (k : Key).

Lemma lru_find_none_notin k c : lru_find k c = None -> ~ In k (map fst c).
Proof.
  induction c as [|[k' v'] c IH]; cbn; [tauto|].
  destruct (key_eqb_spec k k') as [->|Hne]; [discriminate|].
  intros H [E|Hin]; [congruence | now apply IH].
Qed.

Lemma lru_remove_in k k' c : In k' (map fst (lru_remove k c)) -> In k' (map fst c).
Proof.
  induction c as [|[k0 v0] c IH]; cbn; [tauto|].
  destruct (key_eqb k k0); cbn; tauto.
Qed.

Lemma lru_remove_nodup k c :
  NoDup (map fst c) ->
  NoDup (map fst (lru_remove k c)) /\ ~ In k (map fst (lru_remove k c)).
Proof.
  induction c as [|[k0 v0] c IH]; cbn; intros Hnd.
  - split; [constructor | tauto].
  - inversion Hnd as [|? ? Hnotin Hnd']; subst.
    destruct (key_eqb_spec k k0) as [->|Hne]; cbn.
    + split; assumption.
    + destruct (IH Hnd') as [Hnd2 Hk]. split.
      * constructor; [|exact Hnd2]. intros Hin. apply Hnotin.
        now apply lru_remove_in in Hin.
      * intros [E|Hin]; [congruence | tauto].
Qed.

Lemma lru_remove_length k c v :
  lru_find k c = Some v -> S (List.length (lru_remove k c)) = List.length c.
Proof.
  induction c as [|[k0 v0] c IH]; cbn; [discriminate|].
  destruct (key_eqb k k0); [reflexivity|].
  intros H. cbn. now rewrite IH.
Qed.

Lemma lru_find_remove_other k k' c :
  key_eqb k' k = false -> lru_find k' (lru_remove k c) = lru_find k' c.
Proof.
  intros Hne. induction c as [|[k0 v0] c IH]; cbn; [reflexivity|].
  destruct (key_eqb_spec k k0) as [->|Hk]; cbn.
  - now rewrite Hne.
  - now rewrite IH.
Qed.

Lemma removelast_keys_in k c :
  In k (map fst (removelast c)) -> In k (map fst c).
Proof.
  induction c as [|x l IHl]; [cbn; tauto|].
  destruct l as [|y l']; [cbn; tauto|].
  change (removelast (x :: y :: l')) with (x :: removelast (y :: l')).
  cbn [map In]. intros [E|Hin]; [now left | right; now apply IHl].
Qed.

Lemma removelast_keys_nodup c :
  NoDup (map fst c) -> NoDup (map fst (removelast c)).
Proof.
  induction c as [|e c IH]; [auto|].
  destruct c as [|e' c']; [constructor|].
  change (removelast (e :: e' :: c')) with (e :: removelast (e' :: c')).
  cbn [map]. intros Hnd. inversion Hnd as [|? ? Hnotin Hnd']; subst.
  constructor; [|now apply IH].
  intros Hin. apply Hnotin. now apply removelast_keys_in in Hin.
Qed.

Lemma removelast_length c :
  c <> [] -> S (List.length (removelast c)) = List.length c.
Proof.
  induction c as [|x l IHl]; [congruence|]. intros _.
  destruct l as [|y l']; [reflexivity|].
  change (removelast (x :: y :: l')) with (x :: removelast (y :: l')).
  cbn [List.length]. rewrite IHl by discriminate. reflexivity.
Qed.

End QueueKeys.

Lemma cache_ok_step (yf : Provider) (t p i : string) (st : State) :
  cache_ok (cache st) -> cache_ok (cache (snd (get_stock_data yf t p i st))).
Proof.
  intros [Hlen Hnd]. rewrite get_stock_data_run.
  destruct (lru_find (t, p, i) (cache st)) as [v|] eqn:Hf; cbn zeta; cbn [snd].
  - unfold set_cache, lru_touch, cache_ok. cbn [cache map fst List.length].
    rewrite (lru_remove_length _ _ _ Hf).
    destruct (lru_remove_nodup (t, p, i) (cache st) Hnd) as [Hnd' Hk].
    split; [exact Hlen | constructor; assumption].
  - pose proof (lru_find_none_notin _ _ Hf) as Hk.
    unfold set_cache, log_call, lru_store, cache_ok. cbn [cache].
    destruct (maxsize <=? List.length (cache st))%nat eqn:Hfull.
    + apply Nat.leb_le in Hfull. cbn [map fst List.length].
      assert (Hne : cache st <> []).
      { intros E. rewrite E in Hfull. unfold maxsize in Hfull. cbn in Hfull. lia. }
      rewrite (removelast_length _ Hne). split; [exact Hlen|].
      constructor; [|now apply removelast_keys_nodup].
      intros Hin. apply Hk. now apply removelast_keys_in in Hin.
    + apply Nat.leb_gt in Hfull. cbn [map fst List.length].
      split; [lia | constructor; assumption].
Qed.

(** X2. The cache never outgrows its capacity of 1000 entries and never
    holds a key twice: both are kept by every call of the memoized fetch,
    so by every run of calls. *)
Theorem cache_stays_within_capacity (yf : Provider) (keys : list Key) (st : State) :
  cache_ok (cache st) -> cache_ok (cache (run_fetches yf keys st)).
Proof.
  revert st. induction keys as [|[[t p] i] keys IH]; intros st Hok; [exact Hok|].
  cbn [run_fetches]. apply IH. now apply cache_ok_step.
Qed.

Lemma cache_stays_within_capacity_witness :
  cache_ok (cache no_state)
  /\ cache_ok (cache (run_fetches steady
                        [("AAPL", "1d", "1h"); ("AAPL", "1d", "1h"); ("MSFT", "1d", "1h")]
                        no_state)).
Proof.
  assert (H : cache_ok (cache no_state)).
  { split; [cbn; lia | constructor]. }
  split; [exact H|].
  exact (cache_stays_within_capacity steady
           [("AAPL", "1d", "1h"); ("AAPL", "1d", "1h"); ("MSFT", "1d", "1h")]
           no_state H).
Defined.

(** X3. A hit returns the stored result, issues no upstream request and
    evicts nothing: the cache keeps its size and every key looks up as
    before. *)
Theorem hit_changes_no_lookup (yf : Provider) (t p i : string) (st : State)
  (v : option DataFrame) :
  lru_find (t, p, i) (cache st) = Some v ->
  let run := get_stock_data yf t p i st in
  fst run = Ok v
  /\ calls (snd run) = calls st
  /\ List.length (cache (snd run)) = List.length (cache st)
  /\ forall k, lru_find k (cache (snd run)) = lru_find k (cache st).
Proof.
  intros Hf run. subst run. rewrite get_stock_data_run, Hf. cbn.
  split; [reflexivity|]. split; [reflexivity|].
  split; [now rewrite (lru_remove_length _ _ _ Hf)|].
  intros k. destruct (key_eqb_spec k (t, p, i)) as [->|Hne].
  - now rewrite Hf.
  - apply lru_find_remove_other.
    destruct (key_eqb_spec k (t, p, i)); congruence.
Qed.

Lemma hit_changes_no_lookup_witness :
  lru_find ("AAPL", "90d", "1d") (cache poisoned) = Some None
  /\ calls (snd (get_stock_data down "AAPL" "90d" "1d" poisoned)) = calls poisoned.
Proof.
  assert (H : lru_find ("AAPL", "90d", "1d") (cache poisoned) = Some None)
    by reflexivity.
  split; [exact H|].
  exact (proj1 (proj2 (hit_changes_no_lookup down "AAPL" "90d" "1d" poisoned None H))).
Defined.

(* ------------------------------------------------------------------ *)
(** ** The stock handler, request after request *)

Lemma count_range_app (a b : list Call) :
  count_range (a ++ b) = (count_range a + count_range b)%nat.
Proof.
  unfold count_range. induction a as [|c a IH]; cbn; [reflexivity|].
  destruct (is_history_range c); cbn; now rewrite IH.
Qed.

(** The handler writes nothing to the cache itself: the cache it leaves is
    the one the memoized fetch left. *)
Lemma stock_endpoint_cache (yf : Provider) (now : datetime)
  (symbol p i : string) (exchange : option string) (st : State)
  (resolved : string) (start : option datetime) :
  apply_exchange symbol exchange = Ok resolved ->
  get_date_range now p = Ok (start, now) ->
  cache (snd (get_stock_data_endpoint yf now symbol p i exchange st))
  = cache (snd (get_stock_data yf resolved p i st)).
Proof.
  intros Hres Hrange.
  unfold get_stock_data_endpoint. rewrite wrap500. cbn [snd].
  rewrite (bind_lift _ _ _ _ Hres), (bind_lift _ _ _ _ Hrange).
  rewrite fetch_step. cbn zeta.
  destruct (get_stock_data_returns yf resolved p i st) as (v & st1 & Hrun).
  rewrite Hrun. cbn [fst snd].
  destruct v as [d|].
  - rewrite info_then_pure by (intros; destruct (df_empty d); reflexivity).
    reflexivity.
  - destruct (answer_frame yf (List.length (calls st1))
                (CallHistoryRange resolved start now i)) as [d|e]; [|reflexivity].
    rewrite info_then_pure by (intros; destruct (df_empty d); reflexivity).
    reflexivity.
Qed.

Lemma stored_failure_request (yf : Provider) (now : datetime)
  (symbol p i : string) (exchange : option string) (st : State) (resolved : string) :
  clock_ok now ->
  apply_exchange symbol exchange = Ok resolved ->
  lru_find (resolved, p, i) (cache st) = Some None ->
  let run := get_stock_data_endpoint yf now symbol p i exchange st in
  lru_find (resolved, p, i) (cache (snd run)) = Some None
  /\ count_range (calls (snd run)) = S (count_range (calls st)).
Proof.
  intros Hc Hres Hf run.
  destruct (clock_ok_range now p Hc) as [start Hrange].
  assert (Hfetch : get_stock_data yf resolved p i st
                   = (Ok None, set_cache (lru_touch (resolved, p, i) None (cache st)) st)).
  { rewrite get_stock_data_run, Hf. reflexivity. }
  split.
  - unfold run. rewrite (stock_endpoint_cache _ _ _ _ _ _ _ _ _ Hres Hrange), Hfetch.
    cbn. now rewrite key_eqb_refl.
  - destruct (stock_endpoint_log yf now symbol p i exchange st resolved start
                Hres Hrange) as (after & Hlog & Hafter & _).
    fold run in Hlog. rewrite Hlog, Hfetch. cbn [fst snd sentinel set_cache calls].
    rewrite count_range_app. cbn.
    destruct Hafter as [-> | ->]; reflexivity.
Qed.

(** X4. The stock handler never writes the answer of its ranged request
    back to the cache: a key that holds a stored failure still holds it
    after the request, whatever the ranged request answered, so the next
    request for the key pays the ranged request again. *)
Theorem stored_failure_is_never_repaired (yf : Provider) (now1 now2 : datetime)
  (symbol p i : string) (exchange : option string) (st : State) (resolved : string) :
  clock_ok now1 -> clock_ok now2 ->
  apply_exchange symbol exchange = Ok resolved ->
  lru_find (resolved, p, i) (cache st) = Some None ->
  let run1 := get_stock_data_endpoint yf now1 symbol p i exchange st in
  let run2 := get_stock_data_endpoint yf now2 symbol p i exchange (snd run1) in
  lru_find (resolved, p, i) (cache (snd run1)) = Some None
  /\ count_range (calls (snd run1)) = S (count_range (calls st))
  /\ lru_find (resolved, p, i) (cache (snd run2)) = Some None
  /\ count_range (calls (snd run2)) = S (S (count_range (calls st))).
Proof.
  intros Hc1 Hc2 Hres Hf run1 run2.
  destruct (stored_failure_request yf now1 symbol p i exchange st resolved
              Hc1 Hres Hf) as [Hf1 Hn1].
  fold run1 in Hf1, Hn1.
  destruct (stored_failure_request yf now2 symbol p i exchange (snd run1) resolved
              Hc2 Hres Hf1) as [Hf2 Hn2].
  fold run2 in Hf2, Hn2.
  repeat split; try assumption. now rewrite Hn2, Hn1.
Qed.

Lemma stored_failure_is_never_repaired_witness :
  clock_ok new_year_2026
  /\ apply_exchange "AAPL" None = Ok "AAPL"
  /\ lru_find ("AAPL", "90d", "1d") (cache poisoned) = Some None
  /\ count_range
       (calls (snd (get_stock_data_endpoint steady new_year_2026 "AAPL" "90d" "1d" None
                      (snd (get_stock_data_endpoint steady new_year_2026
                              "AAPL" "90d" "1d" None poisoned)))))
     = S (S (count_range (calls poisoned))).
Proof.
  assert (H1 : apply_exchange "AAPL" None = Ok "AAPL") by reflexivity.
  assert (H2 : lru_find ("AAPL", "90d", "1d") (cache poisoned) = Some None)
    by reflexivity.
  split; [exact clock_ok_2026|]. split; [exact H1|]. split; [exact H2|].
  exact (proj2 (proj2 (proj2
    (stored_failure_is_never_repaired steady new_year_2026 new_year_2026
       "AAPL" "90d" "1d" None poisoned "AAPL" clock_ok_2026 clock_ok_2026 H1 H2)))).
Defined.






(** X7. The forex, index and mutual-fund handlers read the metadata before
    anything else: when that request fails, the answer is a 500 with the
    text of the failure, the metadata request is the only one issued, no
    history is asked for and the cache is as it was. *)
Theorem metadata_failure_blocks_series (yf : Provider) (now : datetime)
  (p i : string) (st : State) (e : PyExc) :
  (forall pair,
      answer_info yf (List.length (calls st)) (forex_symbol pair) = Raise e ->
      get_forex_data yf now pair p i st
      = (Raise (HTTPException 500 (exc_str e)),
         log_call (CallInfo (forex_symbol pair)) st))
  /\ (forall name,
         answer_info yf (List.length (calls st)) (index_symbol name) = Raise e ->
         get_index_data yf now name p i st
         = (Raise (HTTPException 500 (exc_str e)),
            log_call (CallInfo (index_symbol name)) st))
  /\ (forall symbol,
         answer_info yf (List.length (calls st)) symbol = Raise e ->
         get_mutual_fund_data yf now symbol p i st
         = (Raise (HTTPException 500 (exc_str e)),
            log_call (CallInfo symbol) st)).
Proof.
  split; [|split].
  - intros pair H. unfold get_forex_data, try_except, bind, ticker_info, raise.
    cbn zeta. fold (forex_symbol pair). rewrite H. reflexivity.
  - intros name H. unfold get_index_data, try_except, bind, ticker_info, raise.
    cbn zeta. fold (index_symbol name). rewrite H. reflexivity.
  - intros symbol H. unfold get_mutual_fund_data, try_except, bind, ticker_info, raise.
    rewrite H. reflexivity.
Qed.

Lemma metadata_failure_blocks_series_witness :
  answer_info down (List.length (calls no_state)) (forex_symbol "usd_inr")
  = Raise connection_error
  /\ get_forex_data down new_year_2026 "usd_inr" "90d" "1d" no_state
     = (Raise (HTTPException 500 (exc_str connection_error)),
        log_call (CallInfo (forex_symbol "usd_inr")) no_state).
Proof.
  assert (H : answer_info down (List.length (calls no_state)) (forex_symbol "usd_inr")
              = Raise connection_error) by reflexivity.
  split; [exact H|].
  exact (proj1 (metadata_failure_blocks_series down new_year_2026 "90d" "1d"
                  no_state connection_error) "usd_inr" H).
Defined.

(* ------------------------------------------------------------------ *)
(** ** Symbol resolution *)

Section Strings.

Implicit Types (s t suf : string) (n : nat).

Lemma str_length_app s t :
  String.length (s ++ t) = (String.length s + String.length t)%nat.
Proof. induction s as [|c s IH]; cbn; [reflexivity | now rewrite IH]. Qed.

Lemma drop_app_length s t : PyStr.drop (String.length s) (s ++ t) = t.
Proof. induction s as [|c s IH]; cbn; [now destruct t | exact IH]. Qed.

Lemma endswith_app s suf : PyStr.endswith (s ++ suf) suf = true.
Proof.
  unfold PyStr.endswith. rewrite str_length_app.
  replace (String.length s + String.length suf - String.length suf)%nat
    with (String.length s) by lia.
  rewrite drop_app_length, String.eqb_refl.
  apply andb_true_iff. split; [apply Nat.leb_le; lia | reflexivity].
Qed.

Lemma lower_length s : String.length (PyStr.lower s) = String.length s.
Proof. induction s as [|c s IH]; cbn; [reflexivity | now rewrite IH]. Qed.

Lemma drop_lower n s : PyStr.drop n (PyStr.lower s) = PyStr.lower (PyStr.drop n s).
Proof.
  revert s. induction n as [|n IH]; intros s; [now destruct s|].
  destruct s as [|c s]; cbn; [reflexivity | apply IH].
Qed.

Lemma endswith_lower s suf :
  PyStr.endswith s suf = true ->
  PyStr.endswith (PyStr.lower s) (PyStr.lower suf) = true.
Proof.
  unfold PyStr.endswith. rewrite !lower_length, drop_lower.
  intros H. apply andb_true_iff in H. destruct H as [Hlen Heq].
  apply String.eqb_eq in Heq. rewrite Heq, Hlen, String.eqb_refl. reflexivity.
Qed.

End Strings.

Lemma forex_alias_canonical (key s : string) :
  dict_find FOREX_MAPPING key = Some s -> PyStr.endswith s "=X" = true.
Proof.
  cbn. repeat match goal with
              | |- context [String.eqb key ?k] => destruct (String.eqb key k)
              end; intros [= <-]; reflexivity.
Qed.

Lemma forex_alias_not_canonical (r : string) :
  PyStr.endswith r "=X" = true -> dict_find FOREX_MAPPING (PyStr.lower r) = None.
Proof.
  intros H. apply endswith_lower in H. change (PyStr.lower "=X") with "=x" in H.
  destruct (dict_find FOREX_MAPPING (PyStr.lower r)) as [s|] eqn:Hf; [|reflexivity].
  assert (Hin : In (PyStr.lower r) (dict_keys FOREX_MAPPING)).
  { apply dict_mem_in. unfold dict_mem. now rewrite Hf. }
  cbn in Hin.
  repeat (destruct Hin as [E|Hin]; [rewrite <- E in H; discriminate H|]).
  destruct Hin.
Qed.

(** X8. The symbol the forex handler queries always ends in "=X".  An
    alias of the table, in any letter case, resolves to its table entry;
    any other pair gets "=X" appended unless it already ends in it; and
    resolving a resolved symbol changes nothing. *)
Theorem forex_symbol_is_canonical (pair : string) :
  PyStr.endswith (forex_symbol pair) "=X" = true
  /\ forex_symbol (forex_symbol pair) = forex_symbol pair
  /\ (forall s, dict_find FOREX_MAPPING (PyStr.lower pair) = Some s ->
                forex_symbol pair = s)
  /\ (dict_find FOREX_MAPPING (PyStr.lower pair) = None ->
      forex_symbol pair = if PyStr.endswith pair "=X" then pair else pair ++ "=X").
Proof.
  assert (Hknown : forall s, dict_find FOREX_MAPPING (PyStr.lower pair) = Some s ->
                             forex_symbol pair = s).
  { intros s Hf. unfold forex_symbol, dict_get. rewrite Hf.
    now rewrite (forex_alias_canonical _ _ Hf). }
  assert (Hunknown : dict_find FOREX_MAPPING (PyStr.lower pair) = None ->
                     forex_symbol pair
                     = if PyStr.endswith pair "=X" then pair else pair ++ "=X").
  { intros Hf. unfold forex_symbol, dict_get. rewrite Hf.
    destruct (PyStr.endswith pair "=X"); reflexivity. }
  assert (Hends : PyStr.endswith (forex_symbol pair) "=X" = true).
  { destruct (dict_find FOREX_MAPPING (PyStr.lower pair)) as [s|] eqn:Hf.
    - rewrite (Hknown s eq_refl). exact (forex_alias_canonical _ _ Hf).
    - rewrite (Hunknown eq_refl).
      destruct (PyStr.endswith pair "=X") eqn:He; [exact He | apply endswith_app]. }
  split; [exact Hends|]. split; [|split; assumption].
  unfold forex_symbol at 1. unfold dict_get.
  rewrite (forex_alias_not_canonical _ Hends), Hends. reflexivity.
Qed.

Lemma forex_symbol_is_canonical_witness :
  dict_find FOREX_MAPPING (PyStr.lower "EUR_USD") = Some "EUR/USD=X"
  /\ forex_symbol "EUR_USD" = "EUR/USD=X".
Proof.
  assert (H : dict_find FOREX_MAPPING (PyStr.lower "EUR_USD") = Some "EUR/USD=X")
    by reflexivity.
  split; [exact H|].
  exact (proj1 (proj2 (proj2 (forex_symbol_is_canonical "EUR_USD"))) _ H).
Defined.

Lemma exchange_key_truthy (ex suffix : string) :
  dict_find EXCHANGE_MAPPING (PyStr.lower ex) = Some suffix -> PyStr.truthy ex = true.
Proof.
  intros H. apply lower_nonempty_truthy. intros E. rewrite E in H. discriminate H.
Qed.

(** X9. For an exchange of the table, in any letter case, the stock handler
    resolves a symbol to one that ends in the exchange's suffix, either the
    symbol itself or the symbol with the suffix appended, and resolving the
    result again changes nothing, so a suffix is never doubled.  For an
    exchange outside the table, or none, the symbol is left as it is. *)
Theorem exchange_suffix_applied_once (symbol ex : string) :
  (forall suffix,
      dict_find EXCHANGE_MAPPING (PyStr.lower ex) = Some suffix ->
      exists resolved,
        apply_exchange symbol (Some ex) = Ok resolved
        /\ PyStr.endswith resolved suffix = true
        /\ resolved = (if PyStr.endswith symbol suffix then symbol
                       else symbol ++ suffix)
        /\ apply_exchange resolved (Some ex) = Ok resolved)
  /\ (dict_find EXCHANGE_MAPPING (PyStr.lower ex) = None ->
      apply_exchange symbol (Some ex) = Ok symbol)
  /\ apply_exchange symbol None = Ok symbol.
Proof.
  split; [|split; [|reflexivity]].
  - intros suffix Hf.
    assert (Hrun : forall s, apply_exchange s (Some ex)
                             = Ok (if PyStr.endswith s suffix then s else s ++ suffix)).
    { intros s. unfold apply_exchange, dict_mem, dict_index.
      rewrite (exchange_key_truthy _ _ Hf), Hf. cbn.
      destruct (PyStr.endswith s suffix); reflexivity. }
    exists (if PyStr.endswith symbol suffix then symbol else symbol ++ suffix).
    assert (Hends : PyStr.endswith
                      (if PyStr.endswith symbol suffix then symbol else symbol ++ suffix)
                      suffix = true).
    { destruct (PyStr.endswith symbol suffix) eqn:He; [exact He | apply endswith_app]. }
    split; [apply Hrun|]. split; [exact Hends|]. split; [reflexivity|].
    rewrite Hrun, Hends. reflexivity.
  - intros Hf. unfold apply_exchange, dict_mem. rewrite Hf.
    now rewrite andb_false_r.
Qed.

Lemma exchange_suffix_applied_once_witness :
  dict_find EXCHANGE_MAPPING (PyStr.lower "BSE") = Some ".BO"
  /\ exists resolved,
       apply_exchange "TCS" (Some "BSE") = Ok resolved
       /\ PyStr.endswith resolved ".BO" = true
       /\ resolved = (if PyStr.endswith "TCS" ".BO" then "TCS" else "TCS" ++ ".BO")
       /\ apply_exchange resolved (Some "BSE") = Ok resolved.
Proof.
  assert (H : dict_find EXCHANGE_MAPPING (PyStr.lower "BSE") = Some ".BO")
    by reflexivity.
  split; [exact H|].
  exact (proj1 (exchange_suffix_applied_once "TCS" "BSE") ".BO" H).
Defined.

(* ------------------------------------------------------------------ *)
(** ** The comparison handler on its other paths *)


Lemma get_date_range_end (now : datetime) (p : string)
  (start : option datetime) (end_ : datetime) :
  get_date_range now p = Ok (start, end_) -> end_ = now.
Proof.
  unfold get_date_range.
  destruct (dict_get TIME_PERIODS p (Some 90)) as [d|]; [|congruence].
  destruct (datetime_sub now (timedelta d)); congruence.
Qed.






(** X12. A comparison of several symbols neither reads nor writes the
    cache.  With a working clock it always issues the grouped download,
    and at most one request after it, so such a request is never answered
    from memory. *)
Theorem compare_many_bypasses_cache (yf : Provider) (now : datetime)
  (symbols p i : string) (st : State) :
  let symbol_list := map PyStr.strip (PyStr.split "," symbols) in
  (1 < List.length symbol_list)%nat ->
  let run := compare_instruments yf now symbols p i st in
  cache (snd run) = cache st
  /\ (clock_ok now ->
      exists later,
        calls (snd run)
        = (later ++ CallDownload (PyStr.join " " symbol_list) p i :: calls st)%list
        /\ (List.length later <= 1)%nat).
Proof.
  intros symbol_list Hmany run.
  assert (Hok : forall start,
             get_date_range now p = Ok (start, now) ->
             cache (snd run) = cache st
             /\ exists later,
                 calls (snd run)
                 = (later ++ CallDownload (PyStr.join " " symbol_list) p i
                          :: calls st)%list
                 /\ (List.length later <= 1)%nat).
  { intros start Hrange. subst run.
    rewrite (compare_many_run yf now symbols p i st start Hrange Hmany).
    cbn zeta. fold symbol_list. rewrite get_multiple_stocks_run. cbn zeta.
    cbn [fst snd].
    match goal with
    | |- context [match ?r with Ok _ => _ | Raise _ => _ end] =>
        destruct r as [result|e]
    end.
    - destruct (falsy_result result); cbn [snd log_call cache calls].
      + split; [reflexivity|].
        exists [CallDownloadRange symbol_list start now i]. split; [reflexivity | cbn; lia].
      + split; [reflexivity|]. exists []. split; [reflexivity | cbn; lia].
    - cbn [snd log_call cache calls]. split; [reflexivity|].
      exists []. split; [reflexivity | cbn; lia]. }
  split.
  - destruct (get_date_range now p) as [[start end_]|e] eqn:Hrange.
    + pose proof (get_date_range_end _ _ _ _ Hrange) as ->.
      exact (proj1 (Hok start eq_refl)).
    + subst run. unfold compare_instruments, try_except, bind, lift, raise.
      rewrite Hrange. reflexivity.
  - intros Hc. destruct (clock_ok_range now p Hc) as [start Hrange].
    exact (proj2 (Hok start Hrange)).
Qed.

Lemma compare_many_bypasses_cache_witness :
  (1 < List.length (map PyStr.strip (PyStr.split "," "AAPL,MSFT")))%nat
  /\ cache (snd (compare_instruments steady new_year_2026 "AAPL,MSFT" "90d" "1d"
                   poisoned))
     = cache poisoned.
Proof.
  assert (H : (1 < List.length (map PyStr.strip (PyStr.split "," "AAPL,MSFT")))%nat)
    by (cbn; lia).
  split; [exact H|].
  exact (proj1 (compare_many_bypasses_cache steady new_year_2026 "AAPL,MSFT"
                  "90d" "1d" poisoned H)).
Defined.

(** X13. The comparison handler answers 200 or 500 and nothing else.  On
    several symbols, when the batch fetch has no result and the ranged
    download answers an empty frame, the 404 the handler raises is caught
    by its own [except Exception] and sent as a 500 carrying the text of
    the 404; when that download answers a frame without column levels the
    reshaping fails and is sent as a 500 as well. *)
Theorem compare_no_data_is_500 (yf : Provider) (now : datetime)
  (symbols p i : string) (st : State) :
  let symbol_list := map PyStr.strip (PyStr.split "," symbols) in
  let batch := get_multiple_stocks yf symbol_list p i st in
  let run := compare_instruments yf now symbols p i st in
  (status (respond (fst run)) = 200 \/ status (respond (fst run)) = 500)
  /\ (forall start raw,
         get_date_range now p = Ok (start, now) ->
         (1 < List.length symbol_list)%nat ->
         fst batch = Ok None ->
         answer_frame yf (List.length (calls (snd batch)))
                      (CallDownloadRange symbol_list start now i) = Ok raw ->
         (df_empty raw = true ->
          respond (fst run)
          = {| status := 500;
               body := obj [("detail",
                             VStr "404: No data found for the specified symbols.")] |})
         /\ (df_empty raw = false ->
             forall e, df_levels0 raw = Raise e ->
                       status (respond (fst run)) = 500)).
Proof.
  intros symbol_list batch run. split.
  - subst run. unfold compare_instruments. apply wrap500_status.
  - intros start raw Hrange Hmany Hnone Hraw.
    subst run. rewrite (compare_many_run yf now symbols p i st start Hrange Hmany).
    cbn zeta. fold symbol_list. fold batch. rewrite Hnone. cbn [falsy_result].
    rewrite Hraw. split.
    + intros ->. reflexivity.
    + intros -> e He. unfold FIELDS. cbn [reshape_by_field]. rewrite He. reflexivity.
Qed.

Lemma compare_no_data_is_500_witness :
  get_date_range new_year_2026 "90d"
  = Ok (Some (new_year_2026 - timedelta 90), new_year_2026)
  /\ (1 < List.length (map PyStr.strip (PyStr.split "," "AAPL,MSFT")))%nat
  /\ df_empty no_bars = true
  /\ respond (fst (compare_instruments unknown_everywhere new_year_2026
                     "AAPL,MSFT" "90d" "1d" no_state))
     = {| status := 500;
          body := obj [("detail",
                        VStr "404: No data found for the specified symbols.")] |}.
Proof.
  assert (Hr : get_date_range new_year_2026 "90d"
               = Ok (Some (new_year_2026 - timedelta 90), new_year_2026))
    by reflexivity.
  assert (Hm : (1 < List.length (map PyStr.strip (PyStr.split "," "AAPL,MSFT")))%nat)
    by (cbn; lia).
  assert (He : df_empty no_bars = true) by reflexivity.
  split; [exact Hr|]. split; [exact Hm|]. split; [exact He|].
  exact (proj1 (proj2 (compare_no_data_is_500 unknown_everywhere new_year_2026
                         "AAPL,MSFT" "90d" "1d" no_state)
                  (Some (new_year_2026 - timedelta 90)) no_bars
                  Hr Hm eq_refl eq_refl) He).
Defined.

(* ------------------------------------------------------------------ *)
(** ** What a series request costs upstream *)

Lemma info_first_issued (yf : Provider) (symbol p i : string)
  (start : option datetime) (now : datetime) (st st' : State) :
  calls st'
  = ((if sentinel (fst (get_stock_data yf symbol p i (after_info symbol st)))
      then [CallHistoryRange symbol start now i] else [])
       ++ calls (snd (get_stock_data yf symbol p i (after_info symbol st))))%list ->
  asked_only_for symbol st st'.
Proof.
  intros H. unfold asked_only_for. rewrite H. clear H.
  destruct (get_stock_data_log yf symbol p i (after_info symbol st)) as [-> | ->];
    destruct (sentinel (fst (get_stock_data yf symbol p i (after_info symbol st))));
    cbn [after_info log_call calls app].
  - exists [CallHistoryRange symbol start now i; CallInfo symbol].
    split; [reflexivity|]. split; [cbn; lia | repeat constructor].
  - exists [CallInfo symbol].
    split; [reflexivity|]. split; [cbn; lia | repeat constructor].
  - exists [CallHistoryRange symbol start now i; CallHistory symbol p i; CallInfo symbol].
    split; [reflexivity|]. split; [cbn; lia | repeat constructor].
  - exists [CallHistory symbol p i; CallInfo symbol].
    split; [reflexivity|]. split; [cbn; lia | repeat constructor].
Qed.

Lemma info_failed_issued (symbol : string) (st : State) :
  asked_only_for symbol st (log_call (CallInfo symbol) st).
Proof.
  exists [CallInfo symbol]. split; [reflexivity|]. split; [cbn; lia | repeat constructor].
Qed.

(** X14. With a working clock, each of the four series handlers issues at
    least one and at most three upstream requests per request served, all
    of them for the one symbol it resolved: the symbol with the exchange
    suffix, the forex symbol, the index symbol, the fund symbol. *)
Theorem series_request_costs_at_most_three (yf : Provider) (now : datetime)
  (p i : string) (st : State) :
  clock_ok now ->
  (forall symbol exchange resolved,
      apply_exchange symbol exchange = Ok resolved ->
      asked_only_for resolved st
        (snd (get_stock_data_endpoint yf now symbol p i exchange st)))
  /\ (forall pair,
         asked_only_for (forex_symbol pair) st
           (snd (get_forex_data yf now pair p i st)))
  /\ (forall name,
         asked_only_for (index_symbol name) st
           (snd (get_index_data yf now name p i st)))
  /\ (forall symbol,
         asked_only_for symbol st
           (snd (get_mutual_fund_data yf now symbol p i st))).
Proof.
  intros Hc. destruct (clock_ok_range now p Hc) as [start Hrange].
  split; [|split; [|split]].
  - intros symbol exchange resolved Hres.
    destruct (stock_endpoint_log yf now symbol p i exchange st resolved start
                Hres Hrange) as (after & Hlog & Hafter & Hdata).
    unfold asked_only_for. rewrite Hlog.
    destruct (sentinel (fst (get_stock_data yf resolved p i st))) eqn:Hs.
    + destruct (get_stock_data_log yf resolved p i st) as [-> | ->].
      * exists (after ++ [CallHistoryRange resolved start now i])%list.
        rewrite <- app_assoc. split; [reflexivity|].
        destruct Hafter as [-> | ->]; (split; [cbn; lia | repeat constructor]).
      * exists (after ++ [CallHistoryRange resolved start now i;
                           CallHistory resolved p i])%list.
        rewrite <- app_assoc. split; [reflexivity|].
        destruct Hafter as [-> | ->]; (split; [cbn; lia | repeat constructor]).
    + rewrite (Hdata eq_refl).
      destruct (get_stock_data_log yf resolved p i st) as [-> | ->].
      * exists [CallInfo resolved].
        split; [reflexivity|]. split; [cbn; lia | repeat constructor].
      * exists [CallInfo resolved; CallHistory resolved p i].
        split; [reflexivity|]. split; [cbn; lia | repeat constructor].
  - intros pair.
    destruct (answer_info yf (List.length (calls st)) (forex_symbol pair))
      as [info|e] eqn:Hinfo.
    + apply (info_first_issued yf _ p i start now).
      exact (forex_log yf now pair p i st info start Hinfo Hrange).
    + replace (snd (get_forex_data yf now pair p i st))
        with (log_call (CallInfo (forex_symbol pair)) st); [apply info_failed_issued|].
      unfold get_forex_data, try_except, bind, ticker_info, raise.
      cbn zeta. fold (forex_symbol pair). rewrite Hinfo. reflexivity.
  - intros name.
    destruct (answer_info yf (List.length (calls st)) (index_symbol name))
      as [info|e] eqn:Hinfo.
    + apply (info_first_issued yf _ p i start now).
      exact (index_log yf now name p i st info start Hinfo Hrange).
    + replace (snd (get_index_data yf now name p i st))
        with (log_call (CallInfo (index_symbol name)) st); [apply info_failed_issued|].
      unfold get_index_data, try_except, bind, ticker_info, raise.
      cbn zeta. fold (index_symbol name). rewrite Hinfo. reflexivity.
  - intros symbol.
    destruct (answer_info yf (List.length (calls st)) symbol) as [info|e] eqn:Hinfo.
    + apply (info_first_issued yf _ p i start now).
      exact (mutual_fund_log yf now symbol p i st info start Hinfo Hrange).
    + replace (snd (get_mutual_fund_data yf now symbol p i st))
        with (log_call (CallInfo symbol) st); [apply info_failed_issued|].
      unfold get_mutual_fund_data, try_except, bind, ticker_info, raise.
      rewrite Hinfo. reflexivity.
Qed.

Lemma series_request_costs_at_most_three_witness :
  clock_ok new_year_2026
  /\ asked_only_for "^NSEI" poisoned
       (snd (get_index_data flaky new_year_2026 "Nifty50" "1y" "1wk" poisoned)).
Proof.
  split; [exact clock_ok_2026|].
  exact (proj1 (proj2 (proj2 (series_request_costs_at_most_three flaky new_year_2026
                                "1y" "1wk" poisoned clock_ok_2026))) "Nifty50").
Defined.

(* ------------------------------------------------------------------ *)
(** ** The search handler *)

Lemma fold_filter_map {A B : Type} (P : A -> bool) (f : A -> B)
  (l : list A) (acc : list B) :
  fold_left (fun acc x => if P x then (acc ++ [f x])%list else acc) l acc
  = (acc ++ map f (filter P l))%list.
Proof.
  revert acc. induction l as [|x l IH]; intros acc; cbn.
  - now rewrite app_nil_r.
  - rewrite IH. destruct (P x); cbn; [now rewrite <- app_assoc | reflexivity].
Qed.

Lemma fold_left_pointwise {A B : Type} (f g : B -> A -> B) (l : list A) (acc : B) :
  (forall b x, f b x = g b x) -> fold_left f l acc = fold_left g l acc.
Proof.
  intros H. revert acc. induction l as [|x l IH]; intros acc; cbn; [reflexivity|].
  now rewrite H, IH.
Qed.

Lemma search_forex_filter (query : string) (results : list value) :
  search_forex query results
  = (results ++ map forex_entry (filter (alias_matches query) FOREX_MAPPING))%list.
Proof.
  unfold search_forex.
  rewrite <- (fold_filter_map (alias_matches query) forex_entry).
  apply fold_left_pointwise. intros acc [key symbol]. reflexivity.
Qed.

Lemma search_indices_filter (query : string) (results : list value) :
  search_indices query results
  = (results ++ map index_entry (filter (alias_matches query) INDICES_MAPPING))%list.
Proof.
  unfold search_indices.
  rewrite <- (fold_filter_map (alias_matches query) index_entry).
  apply fold_left_pointwise. intros acc [key symbol]. reflexivity.
Qed.

Lemma str_contains_empty (s : string) : str_contains s EmptyString = true.
Proof. destruct s; reflexivity. Qed.

Lemma slice_to_length {A : Type} (n : Z) (l : list A) :
  0 <= n -> (List.length (slice_to (Some n) l) <= Z.to_nat n)%nat.
Proof.
  intros Hn. unfold slice_to.
  destruct (0 <=? n) eqn:H; [|apply Z.leb_gt in H; lia].
  rewrite List.length_firstn. lia.
Qed.

(** The loop over the ticker names: every name is asked for its metadata
    once, in order, a failure costs the name its entry and nothing else,
    and the loop itself never fails. *)
Lemma search_stocks_run (yf : Provider) (names : list string)
  (results : list value) (st : State) :
  exists found,
    search_stocks yf names results st
    = (Ok (results ++ found)%list, after_infos names st)
    /\ (List.length found <= List.length names)%nat.
Proof.
  revert results st. induction names as [|name names IH]; intros results st.
  - exists []. cbn. unfold ret, after_infos. rewrite app_nil_r.
    destruct st; split; [reflexivity | lia].
  - cbn [search_stocks]. unfold bind at 1. unfold try_except, bind, ticker_info at 1.
    assert (Hst : forall st1, after_infos names (log_call (CallInfo name) st1)
                              = after_infos (name :: names) st1).
    { intros st1. unfold after_infos, log_call. cbn [cache calls map rev].
      now rewrite <- app_assoc. }
    destruct (answer_info yf (List.length (calls st)) name) as [info|e].
    + destruct (value_in (dict_get info "quoteType" VNone) ["EQUITY"]).
      * unfold ret at 1.
        match goal with
        | |- context [search_stocks yf names (results ++ [?r])%list _] =>
            destruct (IH (results ++ [r])%list (log_call (CallInfo name) st))
              as (found & Hrun & Hlen); exists (r :: found)
        end.
        rewrite Hrun, Hst, <- app_assoc. split; [reflexivity | cbn; lia].
      * unfold ret at 1.
        destruct (IH results (log_call (CallInfo name) st)) as (found & Hrun & Hlen).
        exists found. rewrite Hrun, Hst. split; [reflexivity | cbn; lia].
    + unfold ret at 1.
      destruct (IH results (log_call (CallInfo name) st)) as (found & Hrun & Hlen).
      exists found. rewrite Hrun, Hst. split; [reflexivity | cbn; lia].
Qed.

Lemma after_infos_nil (st : State) : after_infos [] st = st.
Proof. destruct st. reflexivity. Qed.

(** The handler, unfolded: it fails only if the query cannot be parsed
    into names; otherwise it answers the stock entries found, then the
    forex aliases, then the index aliases, cut to the limit. *)
Lemma search_run (yf : Provider) (tickers_of : string -> PyResult (list string))
  (query : string) (limit : option Z) (type : option string) (st : State) :
  match searched_names tickers_of query type with
  | Raise e =>
      search_instruments yf tickers_of query limit type st
      = (Raise (HTTPException 500 (exc_str e)), st)
  | Ok names =>
      exists found,
        search_instruments yf tickers_of query limit type st
        = (Ok (obj [("results",
                     VList (slice_to limit (found ++ alias_results type query)%list))]),
           after_infos names st)
        /\ (List.length found <= List.length names)%nat
  end.
Proof.
  unfold searched_names, search_instruments, alias_results, try_except.
  destruct (type_allows type "stock").
  - destruct (tickers_of query) as [names|e]; [|reflexivity].
    destruct (search_stocks_run yf names [] st) as (found & Hrun & Hlen).
    exists found. split; [|exact Hlen].
    unfold bind, lift. rewrite Hrun. cbn [app]. unfold ret.
    destruct (type_allows type "forex"), (type_allows type "index");
      rewrite ?search_indices_filter, ?search_forex_filter;
      cbn [app]; rewrite ?app_nil_r, <- ?app_assoc; reflexivity.
  - exists []. split; [|cbn; lia]. rewrite after_infos_nil.
    unfold bind, ret. cbn [app].
    destruct (type_allows type "forex"), (type_allows type "index");
      rewrite ?search_indices_filter, ?search_forex_filter;
      cbn [app]; rewrite ?app_nil_r; reflexivity.
Qed.

(** X15. A search answered with a result list under a limit that is not
    negative never lists more entries than the limit, whatever the type
    filter and however many names and aliases match. *)
Theorem search_respects_limit (yf : Provider)
  (tickers_of : string -> PyResult (list string))
  (query : string) (n : Z) (type : option string) (st : State) (rs : list value) :
  0 <= n ->
  fst (search_instruments yf tickers_of query (Some n) type st)
  = Ok (obj [("results", VList rs)]) ->
  (List.length rs <= Z.to_nat n)%nat.
Proof.
  intros Hn Hrun.
  pose proof (search_run yf tickers_of query (Some n) type st) as H.
  destruct (searched_names tickers_of query type) as [names|e].
  - destruct H as (found & Heq & _). rewrite Heq in Hrun. cbn [fst] in Hrun.
    injection Hrun as <-. now apply slice_to_length.
  - rewrite H in Hrun. discriminate Hrun.
Qed.

Lemma search_respects_limit_witness :
  0 <= 2
  /\ (List.length
        (filter (alias_matches "usd") FOREX_MAPPING) = 4)%nat
  /\ forall rs,
       fst (search_instruments steady blank_separated "usd" (Some 2) (Some "forex")
              no_state) = Ok (obj [("results", VList rs)]) ->
       (List.length rs <= Z.to_nat 2)%nat.
Proof.
  assert (H : 0 <= 2) by lia.
  split; [exact H|]. split; [reflexivity|].
  intros rs. exact (search_respects_limit steady blank_separated "usd" 2
                      (Some "forex") no_state rs H).
Defined.

(** X16. A search whose type filter is anything but "stock" is answered
    from the two static tables alone: no upstream request is issued, the
    state is untouched and the answer is never an error.  The entries are
    the matching forex aliases, then the matching index aliases, in table
    order, cut to the limit; a filter that is neither "forex" nor "index"
    finds nothing; matching ignores the letter case of the query; and the
    empty query matches every alias. *)
Theorem alias_search_is_local (yf : Provider)
  (tickers_of : string -> PyResult (list string))
  (query : string) (limit : option Z) (t : string) (st : State) :
  t <> "stock" ->
  search_instruments yf tickers_of query limit (Some t) st
  = (Ok (obj [("results", VList (slice_to limit (alias_results (Some t) query)))]), st)
  /\ (t <> "forex" -> t <> "index" -> alias_results (Some t) query = [])
  /\ (forall query', PyStr.lower query' = PyStr.lower query ->
                     alias_results (Some t) query' = alias_results (Some t) query)
  /\ alias_results (Some "forex") EmptyString = map forex_entry FOREX_MAPPING
  /\ alias_results (Some "index") EmptyString = map index_entry INDICES_MAPPING.
Proof.
  intros Hne.
  assert (Hs : String.eqb t "stock" = false)
    by (destruct (String.eqb_spec t "stock"); congruence).
  split.
  - pose proof (search_run yf tickers_of query limit (Some t) st) as H.
    unfold searched_names in H. cbn [type_allows] in H. rewrite Hs in H.
    destruct H as (found & Heq & Hlen).
    destruct found; [|cbn in Hlen; lia].
    rewrite Heq, after_infos_nil. reflexivity.
  - split; [|split; [|split]].
    + intros Hf Hi. unfold alias_results. cbn [type_allows].
      destruct (String.eqb_spec t "forex"); [congruence|].
      destruct (String.eqb_spec t "index"); [congruence|]. reflexivity.
    + intros query' Hq. unfold alias_results, alias_matches. now rewrite Hq.
    + reflexivity.
    + reflexivity.
Qed.

Lemma alias_search_is_local_witness :
  "index" <> "stock"
  /\ search_instruments down blank_separated "NIF" None (Some "index") poisoned
     = (Ok (obj [("results",
                  VList [obj [("symbol", VStr "^NSEI"); ("name", VStr "Nifty50");
                              ("type", VStr "index")]])]), poisoned).
Proof.
  assert (H : "index" <> "stock") by discriminate.
  split; [exact H|].
  rewrite (proj1 (alias_search_is_local down blank_separated "NIF" None "index"
                    poisoned H)).
  reflexivity.
Defined.



Example search_finds_stocks_and_aliases :
  fst (search_instruments steady blank_separated "RELIANCE.NS" (Some 10) None no_state)
  = Ok (obj [("results", VList [])])
  /\ fst (search_instruments steady blank_separated "usd" (Some (-3)) (Some "forex")
            no_state)
     = Ok (obj [("results",
                 VList [obj [("symbol", VStr "USD/INR=X"); ("name", VStr "USD/INR");
                             ("type", VStr "forex")]])]).
Proof. split; reflexivity. Qed.

Example search_classifies_exchanges :
  fst (search_instruments all_listed blank_separated "AAPL TCS.NS" (Some 10)
         (Some "stock") no_state)
  = Ok (obj [("results",
              VList [obj [("symbol", VStr "AAPL"); ("name", VStr "Apple Inc.");
                          ("exchange", VStr "NASDAQ"); ("type", VStr "stock")];
                     obj [("symbol", VStr "TCS.NS"); ("name", VStr "Apple Inc.");
                          ("exchange", VStr "NSE"); ("type", VStr "stock")]])]).
Proof. reflexivity. Qed.

(* ------------------------------------------------------------------ *)
(** ** The cache, seen from the stock handler *)


